(** * dnstest.py: DNS benchmark and pollution check

    A shallow embedding of [src/dnstest.py] and proofs about it.

    - Python floats (latencies, rates, time-outs) are exact rationals [Q].
      The rates the script compares with 0.4 are quotients of two small
      counts, for which the comparison of doubles and the comparison of
      rationals agree.  Sums and quotients are exact here and rounded in
      the script, so no bound is stated that rounding could break, such as
      the average lying between the minimum and the maximum.
    - The name servers handed to dnspython are IP address literals, as
      [main] passes them on; the [ValueError] that the setter of
      [nameservers] raises for any other string is not modelled.
    - Everything the script obtains from outside (the clock, the network,
      the system resolver configuration, the MMDB file) is a field of
      [World]; code that touches it lives in the monad [M] of state and
      exceptions.
    - The labels are the strings of the source; they are compared as the
      data frame compares them, code point by code point, which on UTF-8
      is byte by byte. *)

From Stdlib Require Import QArith Qminmax Lqa Ascii String.
From stdpp Require Import gmap strings list sorting.

Local Open Scope Q_scope.
Local Open Scope string_scope.
Local Open Scope list_scope.

(** ** Python values, exceptions *)

Inductive pyval :=
| PyNone
| PyBool (b : bool)
| PyInt (n : Z)
| PyStr (s : string)
| PyObj (name : string).

(** Truth value testing as in [if x:]. *)
Definition truthy (v : pyval) : bool :=
  match v with
  | PyNone => false
  | PyBool b => b
  | PyInt n => negb (n =? 0)%Z
  | PyStr s => negb (String.eqb s "")
  | PyObj _ => true
  end.

(** Errors of [resolver.resolve]. *)
Inductive dns_error :=
| Timeout
| NXDOMAIN
| NoAnswer
| NoNameservers
| OtherDNSError (msg : string).

Inductive exn :=
| NameError (name : string)
| ValueError (msg : string)
| DNSException (e : dns_error)
| NoResolverConfiguration
| KeyError
| SystemExit (code : Z).

(** [except Exception] does not catch [SystemExit]; a bare [except:] does. *)
Definition is_Exception (e : exn) : bool :=
  match e with
  | SystemExit _ => false
  | _ => true
  end.

Inductive result (A : Type) :=
| Ok (a : A)
| Raise (e : exn).
Arguments Ok {A} a.
Arguments Raise {A} e.

(** ** The dnspython resolver object *)

(** [/etc/resolv.conf] as far as the resolver constructor reads it. *)
Record ResolvConf := mkResolvConf {
  conf_nameservers : list string;
  conf_search : list string
}.

(** Answer cache of a resolver: (name, record type) to addresses. *)
Definition Cache := list ((string * string) * list string).

Record Resolver := mkResolver {
  nameservers : list string;
  timeout : Q;
  lifetime : Q;
  cache : option Cache;
  search : list string
}.

(** The setter of [nameservers] for a list of IP address literals, which
    is what [main] passes on: the candidates have gone through
    [ipaddress.ip_address] twice (lines 136 and 149).  For any other string
    dnspython's setter raises [ValueError]; that path is not modelled. *)
Definition set_nameservers (v : list string) (r : Resolver) : Resolver :=
  mkResolver v (timeout r) (lifetime r) (cache r) (search r).
Definition set_timeout (v : Q) (r : Resolver) : Resolver :=
  mkResolver (nameservers r) v (lifetime r) (cache r) (search r).
Definition set_lifetime (v : Q) (r : Resolver) : Resolver :=
  mkResolver (nameservers r) (timeout r) v (cache r) (search r).
Definition set_cache (v : option Cache) (r : Resolver) : Resolver :=
  mkResolver (nameservers r) (timeout r) (lifetime r) v (search r).

(** One DNS question as it leaves the process. *)
Record Query := mkQuery {
  q_nameservers : list string;
  q_domain : string;
  q_rtype : string;
  q_lifetime : Q
}.

Inductive reply :=
| Answers (ips : list string)
| Fails (e : dns_error).

(** ** The MMDB reader *)

Inductive mmdb_lookup :=
| Found (fields : gmap string string)
| NotFound
| LookupError.

Definition Reader := string -> mmdb_lookup.

Inductive mmdb_file_state :=
| FileMissing
| FileCorrupt
| FileHolds (reader : Reader).

(** ** The world a task runs in *)

Record World := mkWorld {
  (* time.perf_counter(), in seconds *)
  clock : Q;
  (* outcome and duration of the n-th query put on the wire *)
  network : nat -> Query -> Q * reply;
  (* queries put on the wire, newest first *)
  sent : list Query;
  (* number of Resolver objects constructed *)
  built : nat;
  (* the system resolver configuration, [None] when it cannot be read *)
  resolv_conf : option ResolvConf;
  MMDB_AVAILABLE : bool;
  mmdb_file : mmdb_file_state;
  (* global _ip_mmdb_reader *)
  _ip_mmdb_reader : option Reader;
  (* _thread_local.resolvers, [None] while the attribute does not exist *)
  resolvers : option (list ((string * Q) * Resolver))
}.

Definition tick (d : Q) (q : Query) (w : World) : World :=
  mkWorld (clock w + d) (network w) (q :: sent w) (built w) (resolv_conf w)
          (MMDB_AVAILABLE w) (mmdb_file w) (_ip_mmdb_reader w) (resolvers w).
Definition count_built (w : World) : World :=
  mkWorld (clock w) (network w) (sent w) (S (built w)) (resolv_conf w)
          (MMDB_AVAILABLE w) (mmdb_file w) (_ip_mmdb_reader w) (resolvers w).
Definition set_reader (v : option Reader) (w : World) : World :=
  mkWorld (clock w) (network w) (sent w) (built w) (resolv_conf w)
          (MMDB_AVAILABLE w) (mmdb_file w) v (resolvers w).
Definition set_resolvers (v : option (list ((string * Q) * Resolver)))
    (w : World) : World :=
  mkWorld (clock w) (network w) (sent w) (built w) (resolv_conf w)
          (MMDB_AVAILABLE w) (mmdb_file w) (_ip_mmdb_reader w) v.
(** The same process on a machine with another resolver configuration. *)
Definition with_resolv_conf (c : option ResolvConf) (w : World) : World :=
  mkWorld (clock w) (network w) (sent w) (built w) c
          (MMDB_AVAILABLE w) (mmdb_file w) (_ip_mmdb_reader w) (resolvers w).

(** ** State and exception monad *)

Definition M (A : Type) : Type := World -> result A * World.

#[global] Instance M_ret : MRet M := fun A a w => (Ok a, w).
#[global] Instance M_bind : MBind M := fun A B f m w =>
  match m w with
  | (Ok a, w') => f a w'
  | (Raise e, w') => (Raise e, w')
  end.

Definition raise {A} (e : exn) : M A := fun w => (Raise e, w).

(** [try: m  except Exception: h] *)
Definition try_except_Exception {A} (m : M A) (h : exn -> M A) : M A :=
  fun w =>
    match m w with
    | (Ok a, w') => (Ok a, w')
    | (Raise e, w') => if is_Exception e then h e w' else (Raise e, w')
    end.

(** [try: m  except: h] *)
Definition try_except {A} (m : M A) (h : M A) : M A := fun w =>
  match m w with
  | (Ok a, w') => (Ok a, w')
  | (Raise _, w') => h w'
  end.

Definition get {A} (f : World -> A) : M A := fun w => (Ok (f w), w).
Definition modify (f : World -> World) : M unit := fun w => (Ok tt, f w).

(** [time.perf_counter()] *)
Definition perf_counter : M Q := get clock.

(** ** dnspython: constructor and resolve *)

(** [Resolver.reset]: the attribute values of a resolver that read no
    configuration. *)
Definition Resolver_reset : Resolver :=
  mkResolver [] 2 5 None [].

(** [dns.resolver.Resolver(configure=...)]: with [configure] the system
    configuration is read into the object, and the constructor raises when
    there is none. *)
Definition Resolver_new (configure : bool) : M Resolver := fun w =>
  if configure then
    match resolv_conf w with
    | Some c =>
        (Ok (mkResolver (conf_nameservers c) 2 5 None (conf_search c)),
         count_built w)
    | None => (Raise NoResolverConfiguration, w)
    end
  else (Ok Resolver_reset, count_built w).

Definition cache_get (c : Cache) (domain rtype : string)
    : option (list string) :=
  snd <$> List.find (fun e => String.eqb (fst (fst e)) domain
                              && String.eqb (snd (fst e)) rtype) c.

(** [resolver.resolve(domain, rtype)]: answered from the cache when the
    resolver has one holding the name, from the network otherwise. *)
Definition resolve (r : Resolver) (domain rtype : string) : M (list string) :=
  fun w =>
    match cache r ≫= (fun c => cache_get c domain rtype) with
    | Some ips => (Ok ips, w)
    | None =>
        let q := mkQuery (nameservers r) domain rtype (lifetime r) in
        let '(d, rep) := network w (length (sent w)) q in
        match rep with
        | Answers ips => (Ok ips, tick d q w)
        | Fails e => (Raise (DNSException e), tick d q w)
        end
    end.

(** ** Verdict labels *)

Definition 待检测 : string := "待检测".
Definition 未测试 : string := "未测试".
Definition 未污染 : string := "未污染".
Definition 已污染 : string := "已污染".

(** ** IP ownership lookup *)

(** [加载_ip_mmdb_db()] with its default file name. *)
Definition 加载_ip_mmdb_db : M (option Reader) := fun w =>
  if negb (MMDB_AVAILABLE w) then (Ok None, w)
  else match mmdb_file w with
       | FileMissing => (Ok None, w)
       | FileCorrupt => (Ok None, w)
       | FileHolds reader => (Ok (Some reader), w)
       end.

(** [str.lower] on the ASCII letters. *)
Definition lower_ascii (c : ascii) : ascii :=
  let n := nat_of_ascii c in
  if (65 <=? n)%nat && (n <=? 90)%nat then ascii_of_nat (n + 32) else c.

Fixpoint lower (s : string) : string :=
  match s with
  | EmptyString => EmptyString
  | String c s' => String (lower_ascii c) (lower s')
  end.

(** [keyword in text] *)
Fixpoint contains (keyword text : string) : bool :=
  String.prefix keyword text ||
  match text with
  | EmptyString => false
  | String _ text' => contains keyword text'
  end.

Definition org_fields : list string :=
  ["autonomous_system_organization"; "organization"; "isp"].

Definition google_keywords : list string :=
  ["google"; "google llc"; "google cloud"; "google.com"; "alphabet"; "gcp"].

Definition org_text (response : gmap string string) : string :=
  String.concat " "
    (map (fun f => lower (default "" (response !! f))) org_fields).

(** [any(keyword in org_text for keyword in google_keywords)] *)
Definition 匹配关键词 (response : gmap string string) : bool :=
  existsb (fun keyword => contains keyword (org_text response)) google_keywords.

Definition 检查_google_ip (ip : string) : M bool :=
  global ← get _ip_mmdb_reader;
  _ ← (match global with
       | None => reader ← 加载_ip_mmdb_db; modify (set_reader reader)
       | Some _ => mret tt
       end);
  global ← get _ip_mmdb_reader;
  match global with
  | None => mret false
  | Some reader =>
      try_except
        (match reader ip with
         | LookupError => raise (ValueError "invalid address")
         | NotFound => mret false
         | Found response =>
             if bool_decide (response = ∅) then mret false
             else mret (匹配关键词 response)
         end)
        (mret false)
  end.

(** ** Resolver factory of the verification path *)

Definition 创建干净_resolver (dns_server : string) (timeout : Q) : M Resolver :=
  resolver ← Resolver_new false;
  let resolver := set_nameservers [dns_server] resolver in
  let resolver := set_timeout timeout resolver in
  let resolver := set_lifetime timeout resolver in
  let resolver := set_cache None resolver in
  mret resolver.

(** ** Pollution verifier *)

(** What one pass through a loop body decides. *)
Inductive flow (A R : Type) :=
| Next (acc : A)
| Return (v : R).
Arguments Next {A R} acc.
Arguments Return {A R} v.

(** [all(检查_google_ip(ip) for ip in ips)] *)
Fixpoint all_google (ips : list string) : M bool :=
  match ips with
  | [] => mret true
  | ip :: rest =>
      ok ← 检查_google_ip ip;
      if ok : bool then all_google rest else mret false
  end.

(** [for i, ip in enumerate(benchmark_ips[:3])] *)
Fixpoint 基准IP检查 (ips : list string) : M (flow unit string) :=
  match ips with
  | [] => mret (Next tt)
  | ip :: rest =>
      ok ← 检查_google_ip ip;
      if negb ok then mret (Return 已污染) else 基准IP检查 rest
  end.

(** Body of [for i in range(5)]. *)
Definition 独立验证 (dns_server : string) (纯净次数 : nat) : M (flow nat string) :=
  resolver ← 创建干净_resolver dns_server 3;
  try_except_Exception
    (start ← perf_counter;
     answers ← resolve resolver "google.com" "A";
     let ips := answers in
     stop ← perf_counter;
     let latency := (stop - start) * 1000 in
     ok ← all_google ips;
     if ok : bool then mret (Next (纯净次数 + 1)%nat)
     else mret (Return 已污染))
    (fun e => mret (Return 已污染)).

Fixpoint 验证循环 (todo : nat) (dns_server : string) (纯净次数 : nat)
    : M string :=
  match todo with
  | O => mret (if (纯净次数 =? 5)%nat then 未污染 else 已污染)
  | S todo' =>
      step ← 独立验证 dns_server 纯净次数;
      match step with
      | Return v => mret v
      | Next 纯净次数' => 验证循环 todo' dns_server 纯净次数'
      end
  end.

Definition 终极污染检测 (dns_server : string) (benchmark_ips : list string)
    : M string :=
  step ← 基准IP检查 (take 3 benchmark_ips);
  match step with
  | Return v => mret v
  | Next _ => 验证循环 5 dns_server 0
  end.

(** ** Resolver of the benchmark path *)

(** Key equality of the dict [_thread_local.resolvers]. *)
Definition key_eqb (k1 k2 : string * Q) : bool :=
  String.eqb (fst k1) (fst k2) && Qeq_bool (snd k1) (snd k2).

Definition dict_get (key : string * Q) (d : list ((string * Q) * Resolver))
    : option Resolver :=
  snd <$> List.find (fun e => key_eqb (fst e) key) d.

Definition 获取_resolver (dns_server : string) (timeout_sec : Q) : M Resolver :=
  attr ← get resolvers;
  _ ← (match attr with
       | None => modify (set_resolvers (Some []))
       | Some _ => mret tt
       end);
  let key := (dns_server, timeout_sec) in
  d ← get (fun w => default [] (resolvers w));
  _ ← (match dict_get key d with
       | None =>
           r ← Resolver_new true;
           let r := set_nameservers [dns_server] r in
           let r := set_timeout timeout_sec r in
           let r := set_lifetime timeout_sec r in
           modify (set_resolvers (Some ((key, r) :: d)))
       | Some _ => mret tt
       end);
  d ← get (fun w => default [] (resolvers w));
  match dict_get key d with
  | Some r => mret r
  | None => raise KeyError
  end.

(** ** Query executor *)

(** What the [try] block of [执行_dns查询] calls. *)
Definition 解析 (domain dns_server record_type : string) (timeout_sec : Q)
    : M (list string) :=
  resolver ← 获取_resolver dns_server timeout_sec;
  resolve resolver domain record_type.

Definition 执行_dns查询 (domain dns_server record_type : string)
    (timeout_sec : Q) : M (bool * Q * list string) :=
  start ← perf_counter;
  try_except
    (answers ← 解析 domain dns_server record_type timeout_sec;
     let ip_list := answers in
     stop ← perf_counter;
     mret (true, (stop - start) * 1000, ip_list))
    (stop ← perf_counter;
     mret (false, (stop - start) * 1000, [])).

(** ** Benchmark runner *)

Definition Qltb (x y : Q) : bool :=
  match Qcompare x y with
  | Lt => true
  | _ => false
  end.

Record BenchmarkRecord := mkRecord {
  dns_server : string;
  成功率 : Q;
  平均延迟_ms : Q;
  最小延迟_ms : Q;
  最大延迟_ms : Q;
  dns污染 : string;
  google_ips : list string
}.

Definition set_dns污染 (v : string) (r : BenchmarkRecord) : BenchmarkRecord :=
  mkRecord (dns_server r) (成功率 r) (平均延迟_ms r) (最小延迟_ms r)
           (最大延迟_ms r) v (google_ips r).

Definition sum (l : list Q) : Q := fold_left Qplus l 0.

Inductive ip_version := IPv4Address | IPv6Address.

(** The accumulators of the benchmark loop:
    总次数, 成功次数, 延迟列表, domain_ips. *)
Record 累计 := mk累计 {
  总次数 : nat;
  成功次数 : nat;
  延迟列表 : list Q;
  domain_ips : gmap string (list string)
}.

Section Benchmark.

(** [ipaddress.ip_address]: [None] stands for [ValueError]. *)
Variable ip_address : string -> option ip_version.

Definition 是IPv4地址 (dns_server : string) : bool :=
  match ip_address dns_server with
  | Some IPv4Address => true
  | Some IPv6Address => false
  | None => true
  end.

Definition 记录类型 (ip_mode : string) (是IPv4 : bool) : string :=
  if negb (String.eqb ip_mode "6") && (String.eqb ip_mode "4" || 是IPv4)
  then "A" else "AAAA".

(** [for domain in domains] *)
Fixpoint 测试循环 (domains : list string) (dns_server ip_mode : string)
    (timeout_sec 延迟下限_ms : Q) (是IPv4 : bool) (acc : 累计)
    : M (flow 累计 (option BenchmarkRecord)) :=
  match domains with
  | [] => mret (Next acc)
  | domain :: rest =>
      let rtype := 记录类型 ip_mode 是IPv4 in
      let n := (总次数 acc + 1)%nat in
      out ← 执行_dns查询 domain dns_server rtype timeout_sec;
      let '(ok, latency, ips) := out in
      let ds := <[domain := ips]> (domain_ips acc) in
      if Qltb latency 延迟下限_ms then mret (Return None)
      else if ok : bool then
        测试循环 rest dns_server ip_mode timeout_sec 延迟下限_ms 是IPv4
          (mk累计 n (成功次数 acc + 1)%nat (延迟列表 acc ++ [latency]) ds)
      else
        测试循环 rest dns_server ip_mode timeout_sec 延迟下限_ms 是IPv4
          (mk累计 n (成功次数 acc) (延迟列表 acc) ds)
  end.

Definition 测试单个dns (dns_server : string) (domains : list string)
    (ip_mode : string) (timeout_sec 延迟下限_ms : Q) (开启污染检查 : pyval)
    : M (option BenchmarkRecord) :=
  let 是IPv4 := 是IPv4地址 dns_server in
  step ← 测试循环 domains dns_server ip_mode timeout_sec 延迟下限_ms 是IPv4
           (mk累计 0 0 [] ∅);
  match step with
  | Return v => mret v
  | Next acc =>
      match 延迟列表 acc with
      | [] => mret None
      | first :: others =>
          if (总次数 acc =? 0)%nat then mret None
          else
            let 成功率 := inject_Z (Z.of_nat (成功次数 acc))
                          / inject_Z (Z.of_nat (总次数 acc)) in
            let avg := sum (延迟列表 acc)
                       / inject_Z (Z.of_nat (length (延迟列表 acc))) in
            let min_d := fold_left Qmin others first in
            let max_d := fold_left Qmax others first in
            let 污染状态 :=
              if truthy 开启污染检查 && Qltb (4 # 10) 成功率
              then 待检测 else 未测试 in
            mret (Some (mkRecord dns_server 成功率 avg min_d max_d 污染状态
                          (default [] (domain_ips acc !! "google.com"))))
      end
  end.

End Benchmark.

(** ** Name lookup, worker pools, data frame sort *)

#[global] Instance result_ret : MRet result := fun A a => Ok a.
#[global] Instance result_bind : MBind result := fun A B f m =>
  match m with
  | Ok a => f a
  | Raise e => Raise e
  end.

(** Reading a name that the function never assigns: the module's globals
    (no builtin has such a name). *)
Definition load_global (globals : gmap string pyval) (name : string)
    : result pyval :=
  match globals !! name with
  | Some v => Ok v
  | None => Raise (NameError name)
  end.

(** The names bound once [dnstest.py] has been loaded as a script.  The
    name [maxminddb] is bound only when its import succeeded (lines 19 to
    23); the annotation of line 35 reads it, so without the package the
    module loads only where annotations are evaluated lazily. *)
Definition module_globals (mmdb_available : bool) : gmap string pyval :=
  list_to_map
    ([ ("os", PyObj "module"); ("sys", PyObj "module");
      ("time", PyObj "module"); ("ipaddress", PyObj "module");
      ("threading", PyObj "module"); ("requests", PyObj "module");
      ("pd", PyObj "module"); ("dns", PyObj "module");
      ("ThreadPoolExecutor", PyObj "class"); ("as_completed", PyObj "function");
      ("tqdm", PyObj "class"); ("Optional", PyObj "typing");
      ("Dict", PyObj "typing"); ("Any", PyObj "typing");
      ("List", PyObj "typing"); ("openpyxl", PyObj "module");
      ("PatternFill", PyObj "class");
      ("MMDB_AVAILABLE", PyBool mmdb_available);
      ("DEFAULT_URL", PyStr "https://public-dns.info/nameservers.txt");
      ("TEST_DOMAINS", PyObj "list");
      ("加载_ip_mmdb_db", PyObj "function");
      ("_ip_mmdb_reader", PyNone); ("_ip_mmdb_lock", PyObj "Lock");
      ("检查_google_ip", PyObj "function");
      ("创建干净_resolver", PyObj "function");
      ("终极污染检测", PyObj "function");
      ("读取_dns列表", PyObj "function");
      ("按IP版本过滤", PyObj "function");
      ("_thread_local", PyObj "local");
      ("获取_resolver", PyObj "function");
      ("执行_dns查询", PyObj "function");
      ("测试单个dns", PyObj "function");
      ("设置_excel样式", PyObj "function");
      ("main", PyObj "function");
      ("__name__", PyStr "__main__") ]
     ++ (if mmdb_available then [("maxminddb", PyObj "module")] else [])).

(** [ThreadPoolExecutor(max_workers=n)] *)
Definition ThreadPoolExecutor (max_workers : Z) : result unit :=
  if (max_workers <=? 0)%Z
  then Raise (ValueError "max_workers must be greater than 0")
  else Ok tt.

Inductive cell :=
| Num (x : Q)
| Str (s : string).

(** The columns of the frame that hold scalars. *)
Definition column (name : string) : option (BenchmarkRecord -> cell) :=
  if String.eqb name "dns_server" then Some (fun r => Str (dns_server r))
  else if String.eqb name "成功率" then Some (fun r => Num (成功率 r))
  else if String.eqb name "平均延迟_ms" then Some (fun r => Num (平均延迟_ms r))
  else if String.eqb name "最小延迟_ms" then Some (fun r => Num (最小延迟_ms r))
  else if String.eqb name "最大延迟_ms" then Some (fun r => Num (最大延迟_ms r))
  else if String.eqb name "dns污染" then Some (fun r => Str (dns污染 r))
  else None.

Definition cell_compare (a b : cell) : comparison :=
  match a, b with
  | Num x, Num y => Qcompare x y
  | Str s, Str t => String.compare s t
  | Num _, Str _ => Lt
  | Str _, Num _ => Gt
  end.

(** Lexicographic comparison on (column, ascending) keys. *)
Fixpoint row_compare (keys : list ((BenchmarkRecord -> cell) * bool))
    (r1 r2 : BenchmarkRecord) : comparison :=
  match keys with
  | [] => Eq
  | (col, ascending) :: rest =>
      let c := cell_compare (col r1) (col r2) in
      match (if ascending : bool then c else CompOpp c) with
      | Eq => row_compare rest r1 r2
      | c' => c'
      end
  end.

Definition row_leb (keys : list ((BenchmarkRecord -> cell) * bool))
    (r1 r2 : BenchmarkRecord) : bool :=
  match row_compare keys r1 r2 with
  | Gt => false
  | _ => true
  end.

Definition row_le (keys : list ((BenchmarkRecord -> cell) * bool))
    : relation BenchmarkRecord :=
  fun r1 r2 => row_leb keys r1 r2 = true.

(** The sort on several keys is stable: a row goes in front of the first
    row that it does not come after, so rows that tie on every key keep
    the order they have in the frame. *)
Fixpoint insert_row (keys : list ((BenchmarkRecord -> cell) * bool))
    (r : BenchmarkRecord) (sorted : list BenchmarkRecord)
    : list BenchmarkRecord :=
  match sorted with
  | [] => [r]
  | r' :: rest =>
      if row_leb keys r r' then r :: sorted
      else r' :: insert_row keys r rest
  end.

Definition lexsort (keys : list ((BenchmarkRecord -> cell) * bool))
    (df : list BenchmarkRecord) : list BenchmarkRecord :=
  fold_right (insert_row keys) [] df.

(** [mapM column by] *)
Fixpoint columns (by_ : list string)
    : option (list (BenchmarkRecord -> cell)) :=
  match by_ with
  | [] => Some []
  | name :: rest =>
      match column name, columns rest with
      | Some c, Some cs => Some (c :: cs)
      | _, _ => None
      end
  end.

(** [df.sort_values(by=..., ascending=[...])] with several columns in
    [by], as [main] calls it. *)
Definition sort_values (by_ : list string) (ascending : list bool)
    (df : list BenchmarkRecord) : result (list BenchmarkRecord) :=
  if negb (length by_ =? length ascending)%nat
  then Raise (ValueError "Length of ascending != length of by")
  else match columns by_ with
       | None => Raise KeyError
       | Some cols => Ok (lexsort (zip cols ascending) df)
       end.

(** ** Orchestrator *)

(** What [main] has read from its prompts when the benchmark starts. *)
Record Config := mkConfig {
  dns_list : list string;
  ip_mode : string;
  threads_input : Z;
  test_domains : list string;
  min_delay : Q;
  per_query_timeout_sec : Q
}.

(** What the pools decide: the world each task runs in and the order in
    which [as_completed] hands the futures back (positions in the list of
    submitted tasks). *)
Record Schedule := mkSchedule {
  bench_world : nat -> World;
  bench_done : list nat;
  verify_world : nat -> World;
  verify_done : list nat
}.

(** [for future in as_completed(futures)] of the benchmark phase. *)
Fixpoint 收集结果 (futures : list (result (option BenchmarkRecord)))
    (done : list nat) (结果列表 : list BenchmarkRecord)
    : list BenchmarkRecord :=
  match done with
  | [] => 结果列表
  | i :: rest =>
      match futures !! i with
      | Some (Ok (Some res)) => 收集结果 futures rest (结果列表 ++ [res])
      | _ => 收集结果 futures rest 结果列表
      end
  end.

(** [candidates]: the records are shared with [结果列表], so a candidate is
    the position of its record there. *)
Definition 待检测候选 (结果列表 : list BenchmarkRecord) : list nat :=
  filter (fun j => dns污染 <$> 结果列表 !! j = Some 待检测)
         (seq 0 (length 结果列表)).

(** [for future in as_completed(futures)] of the verification phase:
    [r["dns污染"] = future.result()], or 已污染 when that raises. *)
Fixpoint 回写结果 (candidates : list nat) (futures : list (result string))
    (done : list nat) (结果列表 : list BenchmarkRecord)
    : list BenchmarkRecord :=
  match done with
  | [] => 结果列表
  | p :: rest =>
      match candidates !! p, futures !! p with
      | Some j, Some future =>
          let v := match future with
                   | Ok v => v
                   | Raise _ => 已污染
                   end in
          回写结果 candidates futures rest (alter (set_dns污染 v) j 结果列表)
      | _, _ => 回写结果 candidates futures rest 结果列表
      end
  end.

(** Step 9: [待检测] becomes [未测试]. *)
Definition 默认状态 (结果列表 : list BenchmarkRecord) : list BenchmarkRecord :=
  map (fun r => if bool_decide (dns污染 r = 待检测)
                then set_dns污染 未测试 r else r) 结果列表.

Section Orchestrator.

Variable ip_address : string -> option ip_version.

(** Step 7: every name server is benchmarked on the pool, the records are
    collected as the tasks finish. *)
Definition 基准测试 (cfg : Config) (sch : Schedule) : list BenchmarkRecord :=
  let pollute := PyInt 1 in
  let futures :=
    imap (fun i dns =>
            fst (测试单个dns ip_address dns (test_domains cfg) (ip_mode cfg)
                   (per_query_timeout_sec cfg) (min_delay cfg) pollute
                   (bench_world sch i)))
         (dns_list cfg) in
  收集结果 futures (bench_done sch) [].

(** The futures of step 8, one for each candidate. *)
Definition 检测任务 (sch : Schedule) (结果列表 : list BenchmarkRecord)
    (candidates : list nat) : list (result string) :=
  imap (fun p j =>
          match 结果列表 !! j with
          | Some r => fst (终极污染检测 (dns_server r) (google_ips r)
                             (verify_world sch p))
          | None => Raise KeyError
          end)
       candidates.

(** Step 8, inside [if 开启污染检查:]. *)
Definition 污染检测 (threads : Z) (sch : Schedule)
    (结果列表 : list BenchmarkRecord) : result (list BenchmarkRecord) :=
  let candidates := 待检测候选 结果列表 in
  match candidates with
  | [] => Ok 结果列表
  | _ =>
      _ ← ThreadPoolExecutor (threads / 4)%Z;
      let futures := 检测任务 sch 结果列表 candidates in
      Ok (回写结果 candidates futures (verify_done sch) 结果列表)
  end.

(** [main] from the benchmark (step 7) to the sorted frame (step 10). *)
Definition main (globals : gmap string pyval) (cfg : Config) (sch : Schedule)
    : result (list BenchmarkRecord) :=
  let threads := Z.max 1 (Z.min (threads_input cfg) 4096) in
  _ ← ThreadPoolExecutor threads;
  let 结果列表 := 基准测试 cfg sch in
  match 结果列表 with
  | [] => Raise (SystemExit 1)
  | _ =>
      开启污染检查 ← load_global globals "开启污染检查";
      结果列表 ← (if truthy 开启污染检查
                  then 污染检测 threads sch 结果列表
                  else Ok 结果列表);
      let 结果列表 := 默认状态 结果列表 in
      开启污染检查 ← load_global globals "开启污染检查";
      let sort_cols :=
        ["成功率"; "平均延迟_ms"]
        ++ (if truthy 开启污染检查 then ["dns污染"] else []) in
      sort_values sort_cols [false; true; false] 结果列表
  end.

End Orchestrator.

(** * Vocabulary of the properties *)

(** ** Classification as a function of the world *)

(** The reader that [检查_google_ip] ends up using: the global when it is
    set, what loading yields otherwise. *)
Definition reader_in_effect (w : World) : option Reader :=
  match _ip_mmdb_reader w with
  | Some reader => Some reader
  | None =>
      if negb (MMDB_AVAILABLE w) then None
      else match mmdb_file w with
           | FileHolds reader => Some reader
           | _ => None
           end
  end.

Definition classify (reader : option Reader) (ip : string) : bool :=
  match reader with
  | None => false
  | Some reader =>
      match reader ip with
      | Found response =>
          if bool_decide (response = ∅) then false else 匹配关键词 response
      | _ => false
      end
  end.

Definition google (w : World) (ip : string) : bool :=
  classify (reader_in_effect w) ip.

(** The world after the lazy initialisation of the global reader. *)
Definition loaded (w : World) : World :=
  match _ip_mmdb_reader w with
  | Some _ => w
  | None => set_reader (reader_in_effect w) w
  end.

(** [w'] differs from [w] only in state that no later answer depends on. *)
Definition same_env (w w' : World) : Prop :=
  network w' = network w /\ reader_in_effect w' = reader_in_effect w.

(** A computation from [w] to [w'] that only consulted the classifier. *)
Definition quiet (w w' : World) : Prop :=
  same_env w w' /\ sent w' = sent w /\ built w' = built w.

(** ** Rounds of the verifier *)

(** The baseline loop of lines 91 to 94 lets the verifier go on: each of
    the first three addresses classifies as Google.  It has nothing to
    reject in an empty list. *)
Definition baseline_ok (w : World) (benchmark_ips : list string) : bool :=
  forallb (google w) (take 3 benchmark_ips).

(** The baseline check as the specification words it: it fails when the
    list is empty or when one of the sampled addresses fails the
    classification. *)
Definition spec_baseline_ok (w : World) (benchmark_ips : list string) : bool :=
  match benchmark_ips with
  | [] => false
  | _ => forallb (google w) (take 3 benchmark_ips)
  end.

(** The question each round puts on the wire. *)
Definition verify_query (dns_server : string) : Query :=
  mkQuery [dns_server] "google.com" "A" 3.

(** Round [i] (from 0) passes: the query succeeds and every address it
    resolves to classifies as Google. *)
Definition round_ok (w : World) (dns_server : string) (i : nat) : bool :=
  match snd (network w (length (sent w) + i)%nat (verify_query dns_server)) with
  | Answers ips => forallb (google w) ips
  | Fails _ => false
  end.

Definition first_failing_round (w : World) (dns_server : string) : option nat :=
  List.find (fun i => negb (round_ok w dns_server i)) (seq 0 5).

(** Rounds run: up to and including the first failing one. *)
Definition rounds_run (w : World) (dns_server : string) : nat :=
  match first_failing_round w dns_server with
  | Some k => S k
  | None => 5
  end.

(** Rounds the loop runs from round [i] on when [todo] are left. *)
Fixpoint issued (f : nat -> bool) (i todo : nat) : nat :=
  match todo with
  | O => O
  | S todo' => if f i then S (issued f (S i) todo') else 1%nat
  end.

(** ** Resolver construction *)

(** A factory whose product does not depend on the system's resolver
    configuration. *)
Definition ignores_system_configuration (factory : M Resolver) : Prop :=
  forall w c, fst (factory (with_resolv_conf c w)) = fst (factory w).

(** ** Outcomes of a benchmark run *)

(** One call of the executor, which never raises. *)
Definition query_step (domain dns_server rtype : string) (timeout_sec : Q)
    (w : World) : (bool * Q * list string) * World :=
  match 执行_dns查询 domain dns_server rtype timeout_sec w with
  | (Ok out, w') => (out, w')
  | (Raise _, w') => ((false, 0, []), w')
  end.

(** The outcomes the queries for [domains] report, each run in the world
    the previous one left. *)
Fixpoint 查询序列 (domains : list string) (dns_server rtype : string)
    (timeout_sec : Q) (w : World) : list (bool * Q * list string) :=
  match domains with
  | [] => []
  | domain :: rest =>
      let '(out, w') := query_step domain dns_server rtype timeout_sec w in
      out :: 查询序列 rest dns_server rtype timeout_sec w'
  end.

(** The world after the queries for [domains]. *)
Fixpoint after_queries (domains : list string) (dns_server rtype : string)
    (timeout_sec : Q) (w : World) : World :=
  match domains with
  | [] => w
  | domain :: rest =>
      after_queries rest dns_server rtype timeout_sec
        (snd (query_step domain dns_server rtype timeout_sec w))
  end.

Definition success (out : bool * Q * list string) : bool := fst (fst out).
Definition latency_ms (out : bool * Q * list string) : Q := snd (fst out).

(** Position of the first outcome below the plausibility threshold. *)
Fixpoint first_fast (延迟下限_ms : Q) (outs : list (bool * Q * list string))
    : option nat :=
  match outs with
  | [] => None
  | out :: rest =>
      if Qltb (latency_ms out) 延迟下限_ms then Some O
      else S <$> first_fast 延迟下限_ms rest
  end.

(** Latencies of the successful outcomes. *)
Definition successful_latencies (outs : list (bool * Q * list string))
    : list Q :=
  map latency_ms (List.filter success outs).

(** The record type the runner asks a name server for. *)
Definition query_rtype (ip_address : string -> option ip_version)
    (dns_server ip_mode : string) : string :=
  记录类型 ip_mode (是IPv4地址 ip_address dns_server).

(** The outcomes the queries of a benchmark run report, abort or not. *)
Definition run_outcomes (ip_address : string -> option ip_version)
    (dns_server : string) (domains : list string) (ip_mode : string)
    (timeout_sec : Q) (w : World) : list (bool * Q * list string) :=
  查询序列 domains dns_server (query_rtype ip_address dns_server ip_mode)
    timeout_sec w.

(** ** The report *)

Definition verdict (label : string) : Prop :=
  label = 未污染 \/ label = 已污染.

(** Rank of a label when 未污染 goes first. *)
Definition clean_first (label : string) : nat :=
  if String.eqb label 未污染 then 0 else 1.

(** Success rate descending, then average latency ascending, then 未污染
    ahead of the other labels. *)
Definition report_le (r1 r2 : BenchmarkRecord) : Prop :=
  成功率 r2 < 成功率 r1
  \/ (成功率 r1 == 成功率 r2
      /\ (平均延迟_ms r1 < 平均延迟_ms r2
          \/ (平均延迟_ms r1 == 平均延迟_ms r2
              /\ (clean_first (dns污染 r1) <= clean_first (dns污染 r2))%nat))).

(** [as_completed] hands back each of the [n] futures. *)
Definition hands_back_all (done : list nat) (n : nat) : Prop :=
  forall p, (p < n)%nat -> In p done.

(** What each label means for a record the benchmark produced with the
    check switched on. *)
Definition labelled_by_rate (r : BenchmarkRecord) : Prop :=
  (4 # 10 < 成功率 r -> verdict (dns污染 r))
  /\ (~ 4 # 10 < 成功率 r -> dns污染 r = 未测试).

(** The keys of the sort when the label column takes part. *)
Definition report_keys : list ((BenchmarkRecord -> cell) * bool) :=
  [ ((fun r => Num (成功率 r)), false);
    ((fun r => Num (平均延迟_ms r)), true);
    ((fun r => Str (dns污染 r)), false) ].

(** Two records that differ at most in the label. *)
Definition same_measurements (r r' : BenchmarkRecord) : Prop :=
  dns_server r' = dns_server r /\ 成功率 r' = 成功率 r
  /\ 平均延迟_ms r' = 平均延迟_ms r.

(** ** Sample worlds *)

(** A database that attributes every address but 10.0.0.1 to Google. *)
Definition sample_reader : Reader := fun ip =>
  if String.eqb ip "10.0.0.1"
  then Found {[ "organization" := "Example Telecom" ]}
  else Found {[ "autonomous_system_organization" := "GOOGLE" ]}.

(** Every query is answered in 20 ms with one address. *)
Definition sample_network : nat -> Query -> Q * reply :=
  fun _ _ => (20 # 1000, Answers ["142.250.0.1"]).

Definition sample_world : World :=
  mkWorld 0 sample_network [] 0
          (Some (mkResolvConf ["192.168.1.1"] ["corp.example"]))
          true (FileHolds sample_reader) None None.

(** The third query and every later one resolves to 10.0.0.1. *)
Definition hijacked_network : nat -> Query -> Q * reply :=
  fun n _ => if (n <? 2)%nat then (20 # 1000, Answers ["142.250.0.1"])
             else (20 # 1000, Answers ["10.0.0.1"]).

Definition hijacked_world : World :=
  mkWorld 0 hijacked_network [] 0 None true (FileHolds sample_reader) None None.

(** A name server that lets every query time out after 300 ms. *)
Definition timeout_world : World :=
  mkWorld 0 (fun _ _ => (300 # 1000, Fails Timeout)) [] 0
          (Some (mkResolvConf ["192.168.1.1"] [])) true FileMissing None None.

(** Every query is answered in 20 ms but the one for [facebook.com], which
    is refused after 2 ms. *)
Definition refusing_network : nat -> Query -> Q * reply :=
  fun _ q => if String.eqb (q_domain q) "facebook.com"
             then (2 # 1000, Fails NoNameservers)
             else (20 # 1000, Answers ["142.250.0.1"]).

Definition refusing_world : World :=
  mkWorld 0 refusing_network [] 0
          (Some (mkResolvConf ["192.168.1.1"] [])) true
          (FileHolds sample_reader) None None.

(** Every query is answered in 20 ms but the one for [facebook.com], which
    times out after 300 ms. *)
Definition lossy_network : nat -> Query -> Q * reply :=
  fun _ q => if String.eqb (q_domain q) "facebook.com"
             then (300 # 1000, Fails Timeout)
             else (20 # 1000, Answers ["142.250.0.1"]).

Definition lossy_world : World :=
  mkWorld 0 lossy_network [] 0
          (Some (mkResolvConf ["192.168.1.1"] [])) true
          (FileHolds sample_reader) None None.

(** [ipaddress.ip_address] by the colon. *)
Definition sample_ip_address (s : string) : option ip_version :=
  if contains ":" s then Some IPv6Address else Some IPv4Address.

Definition sample_config : Config :=
  mkConfig ["8.8.8.8"; "203.0.113.7"; "198.51.100.9"] "4" 64
           ["google.com"; "facebook.com"; "amazon.com"] 10 (3 # 10).

(** The first name server answers, the second lets [facebook.com] time
    out, the third lets everything time out; the tasks finish in the order
    2, 0, 1. *)
Definition sample_schedule : Schedule :=
  mkSchedule
    (fun i => match i with
              | O => sample_world
              | S O => lossy_world
              | _ => timeout_world
              end)
    [2; 0; 1]%nat
    (fun p => match p with
              | O => sample_world
              | _ => hijacked_world
              end)
    [1; 0]%nat.

(** The module's globals with the name that [main] reads bound. *)
Definition patched_globals : gmap string pyval :=
  <["开启污染检查" := PyBool true]> (module_globals true).

(** * The rest of the script *)

(** ** Candidate list: download, family filter *)

Section Candidates.

(** [ipaddress.ip_address], [str.strip] and [str.split]. *)
Variable ip_address : string -> option ip_version.
Variable strip : string -> string.
Variable split : string -> list string.

(** [for part in line.split()]: the first part that is an address. *)
Fixpoint 首个地址 (parts : list string) : option string :=
  match parts with
  | [] => None
  | part :: rest =>
      match ip_address part with
      | Some _ => Some part
      | None => 首个地址 rest
      end
  end.

(** [for line in lines] *)
Fixpoint 逐行解析 (lines : list string) (dns_list : list string)
    : list string :=
  match lines with
  | [] => dns_list
  | line :: rest =>
      let line := strip line in
      if String.eqb line "" then 逐行解析 rest dns_list
      else match 首个地址 (split line) with
           | Some part => 逐行解析 rest (dns_list ++ [part])
           | None => 逐行解析 rest dns_list
           end
  end.

(** [读取_dns列表(url)]: [response] is what [requests.get],
    [raise_for_status] and [splitlines] make of the URL. *)
Definition 读取_dns列表 (response : result (list string))
    : result (list string) :=
  lines ← response;
  Ok (逐行解析 lines []).

(** [for ip_str in dns_list] with the two lists [v4], [v6]. *)
Fixpoint 分拣 (dns_list v4 v6 : list string) : list string * list string :=
  match dns_list with
  | [] => (v4, v6)
  | ip_str :: rest =>
      match ip_address ip_str with
      | Some IPv4Address => 分拣 rest (v4 ++ [ip_str]) v6
      | Some IPv6Address => 分拣 rest v4 (v6 ++ [ip_str])
      | None => 分拣 rest v4 v6
      end
  end.

Definition 按IP版本过滤 (dns_list : list string) (mode : string)
    : list string :=
  let '(v4, v6) := 分拣 dns_list [] [] in
  if String.eqb mode "4" then v4
  else if String.eqb mode "6" then v6
  else v4 ++ v6.

End Candidates.

(** ** The prompts of [main] *)

Definition TEST_DOMAINS : list string :=
  [ "google.com"; "facebook.com"; "amazon.com"; "microsoft.com";
    "apple.com"; "cloudflare.com"; "alibaba.com"; "baidu.com";
    "tencent.com"; "netflix.com" ].

Definition DEFAULT_URL : string := "https://public-dns.info/nameservers.txt".

(** The lines typed at the prompts, in order. *)
Record Typed := mkTyped {
  typed_choice : string;
  typed_url : string;
  typed_mode : string;
  typed_threads : string;
  typed_n : string;
  typed_min_delay : string;
  typed_timeout : string
}.

Section Prompts.

Variable ip_address : string -> option ip_version.
Variable strip : string -> string.
Variable split : string -> list string.
(** [int(s)] and [float(s)]: [None] stands for [ValueError]. *)
Variable int : string -> option Z.
Variable float : string -> option Q.
(** The lines behind a URL, or what the download raises. *)
Variable download : string -> result (list string).

(** [input(...).strip() or default] *)
Definition 输入 (answer default : string) : string :=
  let a := strip answer in
  if String.eqb a "" then default else a.

(** [{"1": "4", "2": "6", "3": "46"}[mode]] *)
Definition 模式表 (mode : string) : result string :=
  if String.eqb mode "1" then Ok "4"
  else if String.eqb mode "2" then Ok "6"
  else if String.eqb mode "3" then Ok "46"
  else Raise KeyError.

Definition parse {A} (f : string -> option A) (s : string) : result A :=
  match f s with
  | Some v => Ok v
  | None => Raise (ValueError "invalid literal")
  end.

(** Steps 1 to 5 of [main]. *)
Definition 读取配置 (a : Typed) : result Config :=
  let choice := 输入 (typed_choice a) "1" in
  let url := if String.eqb choice "2" then strip (typed_url a) else DEFAULT_URL in
  dns_list ← 读取_dns列表 ip_address strip split (download url);
  match dns_list with
  | [] => Raise (SystemExit 1)
  | _ =>
      let mode := 输入 (typed_mode a) "1" in
      ip_mode ← 模式表 mode;
      let dns_list := 按IP版本过滤 ip_address dns_list ip_mode in
      threads ← parse int (输入 (typed_threads a) "64");
      let threads := Z.max 1 (Z.min threads 4096) in
      n ← parse int (输入 (typed_n a) "3");
      let n := Z.max 1 (Z.min n (Z.of_nat (length TEST_DOMAINS))) in
      let test_domains := take (Z.to_nat n) TEST_DOMAINS in
      min_delay ← parse float (输入 (typed_min_delay a) "10");
      timeout_ms ← parse float (输入 (typed_timeout a) "300");
      let per_query_timeout_sec := timeout_ms / 1000 in
      Ok (mkConfig dns_list ip_mode threads test_domains min_delay
            per_query_timeout_sec)
  end.

(** [main] from its first prompt to the sorted frame. *)
Definition main_from_prompts (globals : gmap string pyval) (a : Typed)
    (sch : Schedule) : result (list BenchmarkRecord) :=
  cfg ← 读取配置 a;
  main ip_address globals cfg sch.

End Prompts.

(** ** Vocabulary for the rest of the script *)

#[global] Instance ip_version_eq_dec : EqDecision ip_version.
Proof. solve_decision. Defined.

(** The address families a mode of [按IP版本过滤] lets through. *)
Definition family_ok (mode : string) (v : ip_version) : bool :=
  if String.eqb mode "4" then
    match v with IPv4Address => true | IPv6Address => false end
  else if String.eqb mode "6" then
    match v with IPv4Address => false | IPv6Address => true end
  else true.

(** What a line of the downloaded list contributes. *)
Definition line_address (ip_address : string -> option ip_version)
    (strip : string -> string) (split : string -> list string)
    (line : string) : option string :=
  if String.eqb (strip line) "" then None
  else List.find (fun part => bool_decide (is_Some (ip_address part)))
                 (split (strip line)).

(** The same process after the MMDB file changed on disk. *)
Definition with_mmdb_file (f : mmdb_file_state) (w : World) : World :=
  mkWorld (clock w) (network w) (sent w) (built w) (resolv_conf w)
          (MMDB_AVAILABLE w) f (_ip_mmdb_reader w) (resolvers w).



(** ** IP address literals *)

Definition is_digit (c : ascii) : bool :=
  let n := N_of_ascii c in (48 <=? n)%N && (n <=? 57)%N.

Definition is_hex_digit (c : ascii) : bool :=
  let n := N_of_ascii c in
  is_digit c
  || ((65 <=? n)%N && (n <=? 70)%N)
  || ((97 <=? n)%N && (n <=? 102)%N).

(** The parts of [s] between the occurrences of [sep], [part] being the
    part read so far. *)
Fixpoint split_on (sep : ascii) (s : string) (part : string) : list string :=
  match s with
  | EmptyString => [part]
  | String c s' =>
      if Ascii.eqb c sep then part :: split_on sep s' ""
      else split_on sep s' (part +:+ String c EmptyString)
  end.

Fixpoint decimal (s : string) (acc : N) : N :=
  match s with
  | EmptyString => acc
  | String c s' => decimal s' (10 * acc + (N_of_ascii c - 48))%N
  end.

(** One to three decimal digits without a leading zero, at most 255. *)
Definition octet (p : string) : bool :=
  match p with
  | EmptyString => false
  | String c rest =>
      forallb is_digit (list_ascii_of_string p)
      && (String.eqb rest "" || negb (Ascii.eqb c "0"%char))
      && (String.length p <=? 3)%nat
      && (decimal p 0 <=? 255)%N
  end.

(** One to four hexadecimal digits. *)
Definition hextet (p : string) : bool :=
  negb (String.eqb p "")
  && (String.length p <=? 4)%nat
  && forallb is_hex_digit (list_ascii_of_string p).

(** An IPv4 address in dotted decimal notation, or an IPv6 address written
    in full, as eight groups.  These are literals that [ipaddress] and the
    setter of [Resolver.nameservers] both accept; the abbreviated notations
    of IPv6 are left out. *)
Definition is_ip_literal (s : string) : bool :=
  ((length (split_on "."%char s "") =? 4)%nat
   && forallb octet (split_on "."%char s ""))
  || ((length (split_on ":"%char s "") =? 8)%nat
      && forallb hextet (split_on ":"%char s "")).

(** ** Records and frames *)

(** The order of the three sort keys of [main]: success rate descending,
    then average latency ascending, then label descending. *)
Definition key_le (r1 r2 : BenchmarkRecord) : Prop :=
  成功率 r2 < 成功率 r1
  \/ (成功率 r1 == 成功率 r2
      /\ (平均延迟_ms r1 < 平均延迟_ms r2
          \/ (平均延迟_ms r1 == 平均延迟_ms r2
              /\ String.leb (dns污染 r2) (dns污染 r1) = true))).

(** Three rows that tie on success rate and average latency. *)
Definition tied_unverified : BenchmarkRecord :=
  mkRecord "192.0.2.1" (1 # 2) 20 20 20 未测试 [].
Definition tied_clean : BenchmarkRecord :=
  mkRecord "192.0.2.2" (2 # 4) 20 20 20 未污染 [].
Definition tied_polluted : BenchmarkRecord :=
  mkRecord "192.0.2.3" (1 # 2) 20 20 20 已污染 [].

(** A record without its label. *)
Definition measurements (r : BenchmarkRecord) : BenchmarkRecord :=
  set_dns污染 "" r.

(** Whitespace-separated words, for the space character only. *)
Fixpoint words_from (s : string) (word : string) : list string :=
  match s with
  | EmptyString => if String.eqb word "" then [] else [word]
  | String c s' =>
      if Ascii.eqb c " "%char
      then (if String.eqb word "" then words_from s' ""
            else word :: words_from s' "")
      else words_from s' (word +:+ String c EmptyString)
  end.

Definition sample_split (s : string) : list string := words_from s "".

(** Digits and dots make an IPv4 address, a colon an IPv6 address. *)
Definition sample_parse (s : string) : option ip_version :=
  if contains ":" s then Some IPv6Address
  else if contains "." s && negb (contains "#" s) then Some IPv4Address
  else None.

Definition sample_lines : list string :=
  [ "# public resolvers"; ""; "8.8.8.8 9.9.9.9"; "dns 2001:4860:4860::8888";
    "1.1.1.1" ].

(** The dict [domain_ips] after the queries for [domains] reported
    [outs]. *)
Definition recorded_ips (domains : list string)
    (outs : list (bool * Q * list string)) (m : gmap string (list string))
    : gmap string (list string) :=
  fold_left (fun m p => <[fst p := snd (snd p)]> m) (zip domains outs) m.

(** The sample run on a pool of two workers. *)
Definition narrow_config : Config :=
  mkConfig ["8.8.8.8"; "203.0.113.7"; "198.51.100.9"] "4" 2
           ["google.com"; "facebook.com"; "amazon.com"] 10 (3 # 10).

(** The module's globals with the switch bound to [False]. *)
Definition disabled_globals : gmap string pyval :=
  <["开启污染检查" := PyBool false]> (module_globals true).

(** What is typed at the prompts when every default is taken, and when
    mode 7 is asked for. *)
Definition default_answers : Typed := mkTyped "" "" "" "" "" "" "".
Definition mode7_answers : Typed := mkTyped "" "" "7" "" "" "" "".

(** The URL that [main] downloads. *)
Definition chosen_url (strip : string -> string) (a : Typed) : string :=
  if String.eqb (输入 strip (typed_choice a) "1") "2"
  then strip (typed_url a) else DEFAULT_URL.

Definition sample_int (s : string) : option Z :=
  if String.eqb s "64" then Some 64%Z
  else if String.eqb s "3" then Some 3%Z
  else None.

Definition sample_float (s : string) : option Q :=
  if String.eqb s "10" then Some 10
  else if String.eqb s "300" then Some 300
  else None.

Definition sample_download (url : string) : result (list string) :=
  Ok sample_lines.

(** A configuration without candidates. *)
Definition empty_config : Config :=
  mkConfig [] "6" 64 ["google.com"] 10 (3 # 10).

(** A list that holds comments only. *)
Definition comment_download (url : string) : result (list string) :=
  Ok ["# no resolver today"; ""].

(** * Proofs *)

(** ** Running the monad *)

Lemma bind_run {A B} (m : M A) (f : A -> M B) (w : World) :
  (m ≫= f) w =
  match m w with
  | (Ok a, w') => f a w'
  | (Raise e, w') => (Raise e, w')
  end.
Proof. reflexivity. Qed.

Lemma ret_run {A} (a : A) (w : World) : (mret a : M A) w = (Ok a, w).
Proof. reflexivity. Qed.

Ltac run := repeat (rewrite ?bind_run, ?ret_run; cbn [get modify perf_counter raise]).

(** ** Classification *)

Lemma same_env_refl w : same_env w w.
Proof. split; reflexivity. Qed.

Lemma same_env_trans w1 w2 w3 : same_env w1 w2 -> same_env w2 w3 -> same_env w1 w3.
Proof. intros [H1 H2] [H3 H4]. split; congruence. Qed.

Lemma same_env_google w w' ip : same_env w w' -> google w' ip = google w ip.
Proof. intros [_ H]. unfold google. now rewrite H. Qed.

Lemma loaded_env w :
  same_env w (loaded w) /\ sent (loaded w) = sent w
  /\ built (loaded w) = built w /\ clock (loaded w) = clock w
  /\ resolvers (loaded w) = resolvers w.
Proof.
  unfold loaded, same_env, reader_in_effect.
  destruct (_ip_mmdb_reader w) eqn:E; cbn; rewrite ?E; auto.
  repeat split.
  destruct (negb (MMDB_AVAILABLE w)); [reflexivity|].
  destruct (mmdb_file w); reflexivity.
Qed.

Lemma 检查_google_ip_run ip w :
  检查_google_ip ip w = (Ok (google w ip), loaded w).
Proof.
  unfold 检查_google_ip, google, loaded, reader_in_effect, classify.
  rewrite bind_run. cbn [get].
  destruct (_ip_mmdb_reader w) as [reader|] eqn:E.
  - run. rewrite E.
    unfold try_except. destruct (reader ip) as [response| |]; try reflexivity.
    destruct (bool_decide (response = ∅)); reflexivity.
  - rewrite bind_run. unfold 加载_ip_mmdb_db at 1. rewrite bind_run.
    destruct (negb (MMDB_AVAILABLE w)); [reflexivity|].
    destruct (mmdb_file w) as [| |reader]; try reflexivity.
    unfold modify, set_reader. rewrite bind_run. cbn [get _ip_mmdb_reader].
    unfold try_except.
    destruct (reader ip) as [response| |]; try reflexivity.
    destruct (bool_decide (response = ∅)); reflexivity.
Qed.


Lemma quiet_refl w : quiet w w.
Proof. repeat split. Qed.

Lemma quiet_trans w1 w2 w3 : quiet w1 w2 -> quiet w2 w3 -> quiet w1 w3.
Proof.
  intros (E1 & S1 & B1) (E2 & S2 & B2).
  repeat split; try congruence; destruct E1, E2; congruence.
Qed.

Lemma quiet_loaded w : quiet w (loaded w).
Proof. destruct (loaded_env w) as (? & ? & ? & _). unfold quiet. auto. Qed.

Lemma quiet_google w w' ip : quiet w w' -> google w' ip = google w ip.
Proof. intros [H _]. now apply same_env_google. Qed.

Lemma forallb_ext {A} (f g : A -> bool) (l : list A) :
  (forall x, f x = g x) -> forallb f l = forallb g l.
Proof.
  intros H. induction l as [|x l IH]; cbn; [reflexivity|].
  now rewrite H, IH.
Qed.

Lemma all_google_run ips w :
  exists w', all_google ips w = (Ok (forallb (google w) ips), w') /\ quiet w w'.
Proof.
  revert w. induction ips as [|ip rest IH]; intros w.
  - exists w. split; [reflexivity | apply quiet_refl].
  - cbn [all_google forallb]. rewrite bind_run, 检查_google_ip_run.
    destruct (google w ip).
    + destruct (IH (loaded w)) as (w' & Hrun & Hq).
      exists w'. rewrite Hrun. split.
      * do 2 f_equal. apply forallb_ext. intros x.
        apply quiet_google, quiet_loaded.
      * eapply quiet_trans; [apply quiet_loaded | exact Hq].
    + exists (loaded w). split; [reflexivity | apply quiet_loaded].
Qed.

Lemma 基准IP检查_run ips w :
  exists w',
    基准IP检查 ips w
    = (Ok (if forallb (google w) ips then Next tt else Return 已污染), w')
    /\ quiet w w'.
Proof.
  revert w. induction ips as [|ip rest IH]; intros w.
  - exists w. split; [reflexivity | apply quiet_refl].
  - cbn [基准IP检查 forallb]. rewrite bind_run, 检查_google_ip_run.
    destruct (google w ip); cbn [negb andb].
    + destruct (IH (loaded w)) as (w' & Hrun & Hq).
      exists w'. rewrite Hrun. split.
      * rewrite (forallb_ext (google (loaded w)) (google w)); [reflexivity|].
        intros x. apply quiet_google, quiet_loaded.
      * eapply quiet_trans; [apply quiet_loaded | exact Hq].
    + exists (loaded w). split; [reflexivity | apply quiet_loaded].
Qed.

Lemma 创建干净_resolver_run dns_server t w :
  创建干净_resolver dns_server t w
  = (Ok (mkResolver [dns_server] t t None []), count_built w).
Proof. reflexivity. Qed.

(** One round, seen from a world [w0] of which [i] rounds have run. *)
Lemma 独立验证_run w0 dns_server c i w :
  same_env w0 w ->
  length (sent w) = (length (sent w0) + i)%nat ->
  exists w',
    独立验证 dns_server c w
    = (Ok (if round_ok w0 dns_server i then Next (c + 1)%nat
           else Return 已污染), w')
    /\ same_env w0 w'
    /\ length (sent w') = S (length (sent w))
    /\ built w' = S (built w).
Proof.
  intros Henv Hlen. unfold 独立验证.
  rewrite bind_run, 创建干净_resolver_run.
  unfold try_except_Exception, round_ok.
  rewrite bind_run. cbn [perf_counter get].
  rewrite bind_run. unfold resolve at 1.
  cbn [cache nameservers lifetime mbind option_bind sent count_built network].
  fold (verify_query dns_server). rewrite Hlen.
  destruct Henv as [Hnet Hrd]. rewrite Hnet.
  destruct (network w0 (length (sent w0) + i)%nat (verify_query dns_server))
    as [d [ips|e]]; cbn [snd].
  - rewrite bind_run. cbn [perf_counter get]. rewrite bind_run.
    set (w1 := tick d (verify_query dns_server) (count_built w)).
    assert (Henv1 : same_env w0 w1) by (split; [exact Hnet | exact Hrd]).
    destruct (all_google_run ips w1) as (w' & Hrun & Hq & Hs & Hb).
    rewrite Hrun.
    rewrite (forallb_ext (google w1) (google w0))
      by (intros x; now apply same_env_google).
    exists w'. split; [destruct (forallb (google w0) ips); reflexivity|].
    split; [eapply same_env_trans; eassumption|].
    rewrite Hs, Hb. subst w1. cbn [tick count_built sent built length].
    split; [now rewrite Hlen | reflexivity].
  - cbn [is_Exception]. eexists. split; [reflexivity|].
    split; [split; assumption|]. cbn [tick count_built sent built length].
    split; [now rewrite Hlen | reflexivity].
Qed.

Lemma 验证循环_run w0 dns_server todo : forall c i w,
  same_env w0 w ->
  length (sent w) = (length (sent w0) + i)%nat ->
  exists w',
    验证循环 todo dns_server c w
    = (Ok (if forallb (round_ok w0 dns_server) (seq i todo)
           then (if (c + todo =? 5)%nat then 未污染 else 已污染)
           else 已污染), w')
    /\ same_env w0 w'
    /\ length (sent w') = (length (sent w) + issued (round_ok w0 dns_server) i todo)%nat
    /\ built w' = (built w + issued (round_ok w0 dns_server) i todo)%nat.
Proof.
  induction todo as [|todo IH]; intros c i w Henv Hlen.
  - exists w. cbn [验证循环 seq forallb issued].
    rewrite Nat.add_0_r, ret_run. repeat split; auto; destruct Henv; auto.
  - cbn [验证循环 seq forallb issued]. rewrite bind_run.
    destruct (独立验证_run w0 dns_server c i w Henv Hlen)
      as (w1 & Hrun & Henv1 & Hs1 & Hb1).
    rewrite Hrun. destruct (round_ok w0 dns_server i); cbn [andb].
    + destruct (IH (c + 1)%nat (S i) w1 Henv1) as (w' & Hrun' & Henv' & Hs' & Hb').
      { rewrite Hs1, Hlen. lia. }
      exists w'. rewrite Hrun'.
      replace (c + 1 + todo)%nat with (c + S todo)%nat by lia.
      repeat split; try apply Henv'; lia.
    + exists w1. rewrite ret_run. repeat split; try apply Henv1; lia.
Qed.

Lemma issued_find f i todo :
  issued f i todo
  = match List.find (fun k => negb (f k)) (seq i todo) with
    | Some k => (S k - i)%nat
    | None => todo
    end.
Proof.
  revert i. induction todo as [|todo IH]; intros i; cbn [issued seq List.find].
  - reflexivity.
  - destruct (f i) eqn:E; cbn [negb].
    + rewrite IH. destruct (List.find _ (seq (S i) todo)) as [k|] eqn:F.
      * apply find_some in F. destruct F as [Hin _].
        apply in_seq in Hin. lia.
      * reflexivity.
    + lia.
Qed.

Lemma forallb_find_none {A} (f : A -> bool) l :
  forallb f l = true <-> List.find (fun k => negb (f k)) l = None.
Proof.
  induction l as [|x l IH]; cbn; [tauto|].
  destruct (f x); cbn; [exact IH | split; discriminate].
Qed.

(** The verifier in full: verdict and rounds spent. *)
Lemma 终极污染检测_run dns_server benchmark_ips w :
  exists w',
    终极污染检测 dns_server benchmark_ips w
    = (Ok (if baseline_ok w benchmark_ips
              && bool_decide (first_failing_round w dns_server = None)
           then 未污染 else 已污染), w')
    /\ same_env w w'
    /\ length (sent w')
       = (length (sent w)
          + (if baseline_ok w benchmark_ips then rounds_run w dns_server else 0))%nat
    /\ built w'
       = (built w
          + (if baseline_ok w benchmark_ips then rounds_run w dns_server else 0))%nat.
Proof.
  unfold 终极污染检测, baseline_ok. rewrite bind_run.
  destruct (基准IP检查_run (take 3 benchmark_ips) w) as (w1 & Hrun & Henv1 & Hs1 & Hb1).
  rewrite Hrun. destruct (forallb (google w) (take 3 benchmark_ips)); cbn [andb].
  - destruct (验证循环_run w dns_server 5 0 0 w1 Henv1) as (w' & Hrun' & Henv' & Hs' & Hb').
    { rewrite Hs1. lia. }
    exists w'. rewrite Hrun'. unfold rounds_run, first_failing_round.
    rewrite issued_find in Hs', Hb'. split; [|split; [exact Henv'|]].
    + f_equal. f_equal.
      destruct (forallb (round_ok w dns_server) (seq 0 5)) eqn:E.
      * apply forallb_find_none in E. rewrite E. reflexivity.
      * destruct (List.find _ (seq 0 5)) eqn:F; [reflexivity|].
        apply forallb_find_none in F. congruence.
    + rewrite Hs', Hb', Hs1, Hb1.
      destruct (List.find _ (seq 0 5)); split; rewrite ?Nat.sub_0_r; reflexivity.
  - exists w1. rewrite ret_run, Hs1, Hb1.
    repeat split; try apply Henv1; lia.
Qed.

Lemma no_failing_round_iff w dns_server :
  first_failing_round w dns_server = None
  <-> forall i, (i < 5)%nat -> round_ok w dns_server i = true.
Proof.
  unfold first_failing_round. rewrite <- forallb_find_none, forallb_forall.
  split; intros H i Hi.
  - apply H, in_seq. lia.
  - apply in_seq in Hi. apply H. lia.
Qed.

Lemma first_failing_round_is w dns_server k :
  (k < 5)%nat ->
  (forall i, (i < k)%nat -> round_ok w dns_server i = true) ->
  round_ok w dns_server k = false ->
  first_failing_round w dns_server = Some k.
Proof.
  unfold first_failing_round. intros Hk Hbefore Hat.
  assert (G : forall n i, (i <= k < i + n)%nat ->
            (forall j, (i <= j < k)%nat -> round_ok w dns_server j = true) ->
            List.find (fun i => negb (round_ok w dns_server i)) (seq i n) = Some k).
  { induction n as [|n IH]; intros i Hr Hb; [lia|].
    cbn [seq List.find]. destruct (Nat.eq_dec i k) as [->|Hne].
    - now rewrite Hat.
    - rewrite Hb by lia. cbn [negb]. apply IH; [lia|]. intros j Hj. apply Hb. lia. }
  apply G; [lia|]. intros j Hj. apply Hbefore. lia.
Qed.

(** The loop of the code passes where the check of the specification
    passes, and on the empty list besides. *)
Lemma baseline_ok_spec w benchmark_ips :
  baseline_ok w benchmark_ips = true
  <-> benchmark_ips = [] \/ spec_baseline_ok w benchmark_ips = true.
Proof.
  unfold baseline_ok, spec_baseline_ok.
  destruct benchmark_ips as [|ip rest].
  - split; [now left | reflexivity].
  - split; [now right | intros [[=]|H]; exact H].
Qed.

(** C2, as stated, fails: with an empty baseline list the baseline check of
    the specification fails, and yet a candidate that answers well in the
    five rounds is 未污染. *)
Lemma verifier_clean_without_baseline :
  spec_baseline_ok sample_world [] = false
  /\ (forall i, (i < 5)%nat -> round_ok sample_world "8.8.8.8" i = true)
  /\ fst (终极污染检测 "8.8.8.8" [] sample_world) = Ok 未污染.
Proof.
  split; [reflexivity|]. split; [|vm_compute; reflexivity].
  intros i Hi. do 5 (destruct i as [|i]; [vm_compute; reflexivity|]). lia.
Qed.

(** C2, amended.  The verifier always returns, with 未污染 or 已污染; it
    returns 未污染 exactly when the baseline list is empty or passes the
    baseline check, and each of the five rounds passes; and when the
    baseline is empty or passes and round [k] (counted from 0) is the first
    to fail, the verdict is 已污染 after exactly [k + 1] resolvers were
    constructed and [k + 1] queries sent, so the later rounds never run. *)
Theorem verifier_clean_iff_five_rounds dns_server benchmark_ips w :
  exists v w',
    终极污染检测 dns_server benchmark_ips w = (Ok v, w')
    /\ (v = 未污染 \/ v = 已污染)
    /\ (v = 未污染 <->
        (benchmark_ips = [] \/ spec_baseline_ok w benchmark_ips = true)
        /\ forall i, (i < 5)%nat -> round_ok w dns_server i = true)
    /\ (forall k,
          benchmark_ips = [] \/ spec_baseline_ok w benchmark_ips = true ->
          (k < 5)%nat ->
          (forall i, (i < k)%nat -> round_ok w dns_server i = true) ->
          round_ok w dns_server k = false ->
          v = 已污染
          /\ length (sent w') = (length (sent w) + S k)%nat
          /\ built w' = (built w + S k)%nat).
Proof.
  destruct (终极污染检测_run dns_server benchmark_ips w) as (w' & Hrun & _ & Hs & Hb).
  eexists; exists w'. split; [exact Hrun|].
  rewrite <- !baseline_ok_spec.
  split; [|split].
  - destruct (_ && _); auto.
  - rewrite <- no_failing_round_iff.
    destruct (baseline_ok w benchmark_ips); cbn [andb].
    + case_bool_decide as Hf.
      * tauto.
      * split; [discriminate | tauto].
    + split; [discriminate | intros [? _]; discriminate].
  - intros k Hbase Hk Hbefore Hat. apply baseline_ok_spec in Hbase.
    pose proof (first_failing_round_is w dns_server k Hk Hbefore Hat) as Hf.
    rewrite Hbase in *. unfold rounds_run in *. rewrite Hf in *.
    cbn [andb]. rewrite bool_decide_eq_false_2 by discriminate. auto.
Qed.

(** At a resolver whose third answer is foreign, rounds 4 and 5 are not
    run. *)
Lemma verifier_clean_iff_five_rounds_witness :
  exists v w',
    终极污染检测 "8.8.8.8" ["142.250.0.1"] hijacked_world = (Ok v, w')
    /\ v = 已污染 /\ length (sent w') = 3%nat /\ built w' = 3%nat.
Proof.
  destruct (verifier_clean_iff_five_rounds "8.8.8.8" ["142.250.0.1"] hijacked_world)
    as (v & w' & Hrun & _ & _ & Hshort).
  exists v, w'. split; [exact Hrun|].
  apply (Hshort 2%nat).
  - right. vm_compute. reflexivity.
  - lia.
  - intros i Hi.
    destruct i as [|[|i]]; [vm_compute; reflexivity | vm_compute; reflexivity | lia].
  - vm_compute. reflexivity.
Defined.

(** C1, as stated, fails: with an empty baseline list and a resolver that
    answers well the five rounds are run and the verdict is 未污染. *)
Lemma verifier_empty_baseline_counterexample :
  fst (终极污染检测 "8.8.8.8" [] sample_world) = Ok 未污染
  /\ length (sent (snd (终极污染检测 "8.8.8.8" [] sample_world))) = 5%nat
  /\ built (snd (终极污染检测 "8.8.8.8" [] sample_world)) = 5%nat.
Proof. vm_compute. repeat split. Qed.

(** C1, amended.  With an empty baseline list the baseline check passes
    vacuously: the rounds are run (at least one resolver is constructed and
    one query sent) and the verdict is 未污染 exactly when all five rounds
    pass, 已污染 otherwise. *)
Theorem verifier_empty_baseline_runs_rounds dns_server w :
  exists v w',
    终极污染检测 dns_server [] w = (Ok v, w')
    /\ (v = 未污染 \/ v = 已污染)
    /\ (v = 未污染 <-> forall i, (i < 5)%nat -> round_ok w dns_server i = true)
    /\ length (sent w') = (length (sent w) + rounds_run w dns_server)%nat
    /\ built w' = (built w + rounds_run w dns_server)%nat
    /\ (1 <= rounds_run w dns_server <= 5)%nat.
Proof.
  destruct (终极污染检测_run dns_server [] w) as (w' & Hrun & _ & Hs & Hb).
  change (baseline_ok w []) with true in *. cbn [andb] in Hrun.
  eexists; exists w'. split; [exact Hrun|].
  rewrite <- no_failing_round_iff.
  split; [|split; [|split; [exact Hs | split; [exact Hb|]]]].
  - case_bool_decide; auto.
  - case_bool_decide as Hf; [tauto | split; [discriminate | tauto]].
  - unfold rounds_run, first_failing_round.
    destruct (List.find _ (seq 0 5)) as [k|] eqn:F; [|lia].
    apply find_some in F. destruct F as [Hin _]. apply in_seq in Hin. lia.
Qed.

(** ** Resolver factories *)

Lemma key_eqb_eq k1 k2 :
  key_eqb k1 k2 = true -> fst k1 = fst k2 /\ snd k1 == snd k2.
Proof.
  unfold key_eqb. intros H. apply andb_true_iff in H. destruct H as [H1 H2].
  apply String.eqb_eq in H1. apply Qeq_bool_iff in H2. auto.
Qed.

Lemma key_eqb_refl k : key_eqb k k = true.
Proof.
  unfold key_eqb. rewrite String.eqb_refl. cbn.
  apply Qeq_bool_iff. reflexivity.
Qed.

Lemma dict_get_Some key d r :
  dict_get key d = Some r ->
  exists key', In (key', r) d /\ fst key' = fst key /\ snd key' == snd key.
Proof.
  unfold dict_get. destruct (List.find _ d) as [[key' r']|] eqn:F; [|discriminate].
  cbn. intros [= <-]. apply find_some in F. destruct F as [Hin Hk].
  exists key'. split; [exact Hin|]. now apply key_eqb_eq.
Qed.

Lemma dict_get_head key r d : dict_get key ((key, r) :: d) = Some r.
Proof. unfold dict_get. cbn. now rewrite key_eqb_refl. Qed.

(** The dict [获取_resolver] works on, once the attribute exists. *)
Lemma 获取_resolver_run dns_server t w :
  let d := default [] (resolvers w) in
  获取_resolver dns_server t w =
  match dict_get (dns_server, t) d with
  | Some r =>
      (Ok r, match resolvers w with
             | None => set_resolvers (Some []) w
             | Some _ => w
             end)
  | None =>
      match resolv_conf w with
      | Some c =>
          let r := mkResolver [dns_server] t t None (conf_search c) in
          (Ok r, set_resolvers (Some (((dns_server, t), r) :: d)) (count_built w))
      | None =>
          (Raise NoResolverConfiguration,
           match resolvers w with
           | None => set_resolvers (Some []) w
           | Some _ => w
           end)
      end
  end.
Proof.
  destruct w as [clk net snt blt conf av file rd [d|]];
    unfold 获取_resolver, mbind, M_bind, mret, M_ret, get, modify, raise,
      Resolver_new, set_resolvers, count_built;
    cbn -[dict_get].
  - destruct (dict_get (dns_server, t) d) as [r|] eqn:G; cbn -[dict_get].
    + now rewrite G.
    + destruct conf as [c|]; [|reflexivity].
      cbn -[dict_get]. now rewrite dict_get_head.
  - change (dict_get (dns_server, t) []) with (@None Resolver).
    destruct conf as [c|]; [|reflexivity].
    cbn -[dict_get]. now rewrite dict_get_head.
Qed.

(** C10 does not hold of the benchmark path.  [创建干净_resolver] passes
    [configure=False] and so yields, on every machine, a resolver that is
    bound to the candidate alone, has the given value as time-out and as
    lifetime, no cache and no search list.  [获取_resolver] calls the
    constructor without that argument: in a thread that does not hold the
    resolver of the candidate yet, it raises where the system configuration
    cannot be read, and where it can the resolver carries the search list
    of the system.  What it returns therefore depends on the system
    configuration. *)
Theorem benchmark_resolver_depends_on_system_configuration dns_server t w :
  dict_get (dns_server, t) (default [] (resolvers w)) = None ->
  (forall c,
     fst (创建干净_resolver dns_server t (with_resolv_conf c w))
     = Ok (mkResolver [dns_server] t t None []))
  /\ ignores_system_configuration (创建干净_resolver dns_server t)
  /\ fst (获取_resolver dns_server t (with_resolv_conf None w))
     = Raise NoResolverConfiguration
  /\ (forall c,
        fst (获取_resolver dns_server t (with_resolv_conf (Some c) w))
        = Ok (mkResolver [dns_server] t t None (conf_search c)))
  /\ ~ ignores_system_configuration (获取_resolver dns_server t).
Proof.
  intros G.
  assert (Hnone : fst (获取_resolver dns_server t (with_resolv_conf None w))
                  = Raise NoResolverConfiguration).
  { rewrite 获取_resolver_run. cbn zeta.
    cbn [with_resolv_conf resolvers resolv_conf]. now rewrite G. }
  assert (Hsome : forall c,
            fst (获取_resolver dns_server t (with_resolv_conf (Some c) w))
            = Ok (mkResolver [dns_server] t t None (conf_search c))).
  { intros c. rewrite 获取_resolver_run. cbn zeta.
    cbn [with_resolv_conf resolvers resolv_conf]. now rewrite G. }
  split; [intros c; reflexivity|].
  split; [intros w0 c; reflexivity|].
  split; [exact Hnone|]. split; [exact Hsome|].
  intros H.
  specialize (H (with_resolv_conf (Some (mkResolvConf [] [])) w) None).
  change (with_resolv_conf None (with_resolv_conf (Some (mkResolvConf [] [])) w))
    with (with_resolv_conf None w) in H.
  rewrite Hnone, Hsome in H. discriminate H.
Qed.

(** On a machine without a readable resolver configuration the benchmark
    gets no resolver for 8.8.8.8, the verifier does; on the sample machine
    the resolver of the benchmark carries the search list [corp.example]. *)
Lemma benchmark_resolver_depends_on_system_configuration_witness :
  fst (创建干净_resolver "8.8.8.8" (3 # 10) (with_resolv_conf None sample_world))
  = Ok (mkResolver ["8.8.8.8"] (3 # 10) (3 # 10) None [])
  /\ fst (获取_resolver "8.8.8.8" (3 # 10) (with_resolv_conf None sample_world))
     = Raise NoResolverConfiguration
  /\ fst (获取_resolver "8.8.8.8" (3 # 10)
            (with_resolv_conf
               (Some (mkResolvConf ["192.168.1.1"] ["corp.example"]))
               sample_world))
     = Ok (mkResolver ["8.8.8.8"] (3 # 10) (3 # 10) None ["corp.example"]).
Proof.
  destruct (benchmark_resolver_depends_on_system_configuration
              "8.8.8.8" (3 # 10) sample_world eq_refl)
    as (H1 & _ & H2 & H3 & _).
  split; [exact (H1 None)|]. split; [exact H2|].
  exact (H3 (mkResolvConf ["192.168.1.1"] ["corp.example"])).
Defined.

(** ** Query executor *)

Lemma 执行_dns查询_run domain dns_server record_type timeout_sec w :
  执行_dns查询 domain dns_server record_type timeout_sec w =
  match 解析 domain dns_server record_type timeout_sec w with
  | (Ok ips, w') => (Ok (true, (clock w' - clock w) * 1000, ips), w')
  | (Raise _, w') => (Ok (false, (clock w' - clock w) * 1000, []), w')
  end.
Proof.
  unfold 执行_dns查询. rewrite bind_run. cbn [perf_counter get].
  unfold try_except. rewrite bind_run.
  destruct (解析 domain dns_server record_type timeout_sec w) as [[ips|e] w'];
    reflexivity.
Qed.

Lemma 执行_dns查询_total domain dns_server record_type timeout_sec w :
  exists out w',
    执行_dns查询 domain dns_server record_type timeout_sec w = (Ok out, w').
Proof.
  rewrite 执行_dns查询_run.
  destruct (解析 domain dns_server record_type timeout_sec w) as [[ips|e] w'];
    eauto.
Qed.

(** C9.  The executor never raises; whenever the resolution under it
    raises, whatever the exception, the outcome is failure, the time that
    passed on the clock between entry and the raise (in ms) and no
    address. *)
Theorem executor_folds_every_error domain dns_server record_type timeout_sec w :
  (exists ok latency ips w',
     执行_dns查询 domain dns_server record_type timeout_sec w
     = (Ok (ok, latency, ips), w')
     /\ latency = (clock w' - clock w) * 1000
     /\ (ok = false -> ips = []))
  /\ (forall e w1,
        解析 domain dns_server record_type timeout_sec w = (Raise e, w1) ->
        执行_dns查询 domain dns_server record_type timeout_sec w
        = (Ok (false, (clock w1 - clock w) * 1000, []), w1)).
Proof.
  rewrite 执行_dns查询_run. split.
  - destruct (解析 domain dns_server record_type timeout_sec w) as [[ips|e] w'].
    + exists true, ((clock w' - clock w) * 1000), ips, w'.
      split; [reflexivity|]. split; [reflexivity | discriminate].
    + exists false, ((clock w' - clock w) * 1000), [], w'.
      split; [reflexivity|]. split; reflexivity.
  - intros e w1 ->. reflexivity.
Qed.

Lemma executor_folds_every_error_witness :
  fst (执行_dns查询 "google.com" "203.0.113.7" "A" (3 # 10) timeout_world)
  = Ok (false, (0 + (300 # 1000) - 0) * 1000, []).
Proof.
  destruct (executor_folds_every_error "google.com" "203.0.113.7" "A" (3 # 10)
              timeout_world) as [_ H].
  rewrite (H (DNSException Timeout)
             (tick (300 # 1000) (mkQuery ["203.0.113.7"] "google.com" "A" (3 # 10))
                (set_resolvers
                   (Some [(("203.0.113.7", 3 # 10),
                           mkResolver ["203.0.113.7"] (3 # 10) (3 # 10) None [])])
                   (count_built timeout_world)))).
  - reflexivity.
  - reflexivity.
Defined.

(** A failing query is folded into the outcome whatever its error. *)
Lemma executor_network_error domain dns_server record_type timeout_sec w c d e :
  resolvers w = None ->
  resolv_conf w = Some c ->
  network w (length (sent w)) (mkQuery [dns_server] domain record_type timeout_sec)
  = (d, Fails e) ->
  fst (执行_dns查询 domain dns_server record_type timeout_sec w)
  = Ok (false, (clock w + d - clock w) * 1000, []).
Proof.
  intros Hr Hc Hn. rewrite 执行_dns查询_run. unfold 解析.
  rewrite bind_run, 获取_resolver_run. cbn zeta. rewrite Hr, Hc.
  change (dict_get (dns_server, timeout_sec) (default [] None)) with (@None Resolver).
  unfold resolve. cbn [cache nameservers lifetime mbind option_bind].
  cbn [set_resolvers count_built sent network]. rewrite Hn. reflexivity.
Qed.

(** So is the failure to construct the resolver. *)
Lemma executor_no_configuration domain dns_server record_type timeout_sec w :
  resolvers w = None ->
  resolv_conf w = None ->
  fst (执行_dns查询 domain dns_server record_type timeout_sec w)
  = Ok (false, (clock w - clock w) * 1000, []).
Proof.
  intros Hr Hc. rewrite 执行_dns查询_run. unfold 解析.
  rewrite bind_run, 获取_resolver_run. cbn zeta. rewrite Hr, Hc.
  reflexivity.
Qed.

(** ** Benchmark runner *)

Lemma Qltb_lt x y : Qltb x y = true <-> x < y.
Proof.
  unfold Qltb. rewrite Qlt_alt. destruct (Qcompare x y); split; congruence.
Qed.

Lemma Qltb_ge x y : Qltb x y = false <-> ~ x < y.
Proof.
  rewrite <- Qltb_lt. destruct (Qltb x y); split; congruence.
Qed.

Lemma query_step_run domain dns_server rtype timeout_sec w :
  执行_dns查询 domain dns_server rtype timeout_sec w
  = (Ok (fst (query_step domain dns_server rtype timeout_sec w)),
     snd (query_step domain dns_server rtype timeout_sec w)).
Proof.
  unfold query_step.
  destruct (执行_dns查询_total domain dns_server rtype timeout_sec w)
    as (out & w' & ->).
  reflexivity.
Qed.

Lemma first_fast_spec 延迟下限_ms outs k :
  first_fast 延迟下限_ms outs = Some k ->
  (exists out, outs !! k = Some out /\ latency_ms out < 延迟下限_ms)
  /\ (forall j out, (j < k)%nat -> outs !! j = Some out ->
        ~ latency_ms out < 延迟下限_ms).
Proof.
  revert k. induction outs as [|out outs IH]; intros k; cbn [first_fast].
  - discriminate.
  - destruct (Qltb (latency_ms out) 延迟下限_ms) eqn:E.
    + intros [= <-]. split; [|intros j ? Hj; lia].
      exists out. split; [reflexivity | now apply Qltb_lt].
    + destruct (first_fast 延迟下限_ms outs) as [k'|]; [|discriminate].
      cbn. intros [= <-]. destruct (IH k' eq_refl) as [Hat Hbefore].
      split; [exact Hat|].
      intros [|j] out' Hj; cbn.
      * intros [= <-]. now apply Qltb_ge.
      * apply Hbefore. lia.
Qed.

Lemma first_fast_Exists 延迟下限_ms outs :
  Exists (fun out => latency_ms out < 延迟下限_ms) outs ->
  exists k, first_fast 延迟下限_ms outs = Some k.
Proof.
  induction 1 as [out outs H|out outs _ IH]; cbn [first_fast].
  - apply Qltb_lt in H. rewrite H. eauto.
  - destruct (Qltb (latency_ms out) 延迟下限_ms); [eauto|].
    destruct IH as [k ->]. cbn. eauto.
Qed.

Lemma first_fast_Forall 延迟下限_ms outs :
  Forall (fun out => ~ latency_ms out < 延迟下限_ms) outs ->
  first_fast 延迟下限_ms outs = None.
Proof.
  induction 1 as [|out outs H _ IH]; cbn [first_fast]; [reflexivity|].
  apply Qltb_ge in H. now rewrite H, IH.
Qed.

Lemma 查询序列_length domains dns_server rtype timeout_sec w :
  length (查询序列 domains dns_server rtype timeout_sec w) = length domains.
Proof.
  revert w. induction domains as [|d rest IH]; intros w; cbn [查询序列].
  - reflexivity.
  - destruct (query_step d dns_server rtype timeout_sec w) as [out w1].
    cbn [length]. now rewrite IH.
Qed.

(** The loop: it stops after the first outcome below the threshold, and
    otherwise counts every domain and keeps the latencies of the
    successful outcomes. *)
Lemma 测试循环_run dns_server ip_mode timeout_sec 延迟下限_ms 是IPv4 domains :
  forall acc w,
    let rtype := 记录类型 ip_mode 是IPv4 in
    let outs := 查询序列 domains dns_server rtype timeout_sec w in
    match first_fast 延迟下限_ms outs with
    | Some k =>
        测试循环 domains dns_server ip_mode timeout_sec 延迟下限_ms 是IPv4 acc w
        = (Ok (Return None),
           after_queries (take (S k) domains) dns_server rtype timeout_sec w)
    | None =>
        exists ds,
          测试循环 domains dns_server ip_mode timeout_sec 延迟下限_ms 是IPv4 acc w
          = (Ok (Next (mk累计 (总次数 acc + length domains)
                         (成功次数 acc + length (List.filter success outs))
                         (延迟列表 acc ++ successful_latencies outs) ds)),
             after_queries domains dns_server rtype timeout_sec w)
    end.
Proof.
  cbn zeta. induction domains as [|d rest IH]; intros acc w.
  - cbn. exists (domain_ips acc). destruct acc as [n s l m]. cbn.
    now rewrite !Nat.add_0_r, app_nil_r.
  - cbn [测试循环 查询序列 after_queries]. rewrite bind_run, query_step_run.
    destruct (query_step d dns_server (记录类型 ip_mode 是IPv4) timeout_sec w)
      as [[[ok lat] ips] w1] eqn:Hstep.
    cbn [fst snd first_fast latency_ms].
    destruct (Qltb lat 延迟下限_ms) eqn:Hfast.
    + cbn [take after_queries]. now rewrite Hstep.
    + destruct ok.
      * specialize (IH (mk累计 (总次数 acc + 1) (成功次数 acc + 1)
                          (延迟列表 acc ++ [lat]) (<[d:=ips]> (domain_ips acc))) w1).
        destruct (first_fast 延迟下限_ms
                    (查询序列 rest dns_server (记录类型 ip_mode 是IPv4) timeout_sec w1))
          as [k|]; cbn [fmap option_fmap option_map].
        -- rewrite IH. cbn [take after_queries]. now rewrite Hstep.
        -- destruct IH as [ds IH]. exists ds. rewrite IH.
           cbn [总次数 成功次数 延迟列表 length List.filter success successful_latencies
                  fst map latency_ms snd].
           unfold successful_latencies. rewrite <- app_assoc. cbn [app].
           do 3 f_equal. f_equal; lia.
      * specialize (IH (mk累计 (总次数 acc + 1) (成功次数 acc)
                          (延迟列表 acc) (<[d:=ips]> (domain_ips acc))) w1).
        destruct (first_fast 延迟下限_ms
                    (查询序列 rest dns_server (记录类型 ip_mode 是IPv4) timeout_sec w1))
          as [k|]; cbn [fmap option_fmap option_map].
        -- rewrite IH. cbn [take after_queries]. now rewrite Hstep.
        -- destruct IH as [ds IH]. exists ds. rewrite IH.
           cbn [总次数 成功次数 延迟列表 length List.filter success successful_latencies
                  fst map latency_ms snd].
           do 3 f_equal. f_equal; lia.
Qed.

Lemma fold_Qmin_spec others : forall first,
  In (fold_left Qmin others first) (first :: others)
  /\ Forall (fun x => fold_left Qmin others first <= x) (first :: others).
Proof.
  induction others as [|y others IH]; intros first; cbn [fold_left].
  - split; [now left|]. constructor; [apply Qle_refl | constructor].
  - destruct (IH (Qmin first y)) as [Hin Hle]. split.
    + destruct Hin as [Hin|Hin]; [|right; now right].
      rewrite <- Hin. unfold Qmin, GenericMinMax.gmin.
      destruct (Qcompare first y); [now left | now left | right; now left].
    + inversion Hle as [|? ? Hm Hrest]; subst.
      constructor; [|constructor]; try assumption.
      * eapply Qle_trans; [exact Hm | apply Q.le_min_l].
      * eapply Qle_trans; [exact Hm | apply Q.le_min_r].
Qed.

Lemma fold_Qmax_spec others : forall first,
  In (fold_left Qmax others first) (first :: others)
  /\ Forall (fun x => x <= fold_left Qmax others first) (first :: others).
Proof.
  induction others as [|y others IH]; intros first; cbn [fold_left].
  - split; [now left|]. constructor; [apply Qle_refl | constructor].
  - destruct (IH (Qmax first y)) as [Hin Hle]. split.
    + destruct Hin as [Hin|Hin]; [|right; now right].
      rewrite <- Hin. unfold Qmax, GenericMinMax.gmax.
      destruct (Qcompare first y); [now left | right; now left | now left].
    + inversion Hle as [|? ? Hm Hrest]; subst.
      constructor; [|constructor]; try assumption.
      * eapply Qle_trans; [apply Q.le_max_l | exact Hm].
      * eapply Qle_trans; [apply Q.le_max_r | exact Hm].
Qed.

Section BenchmarkRunner.

Variable ip_address : string -> option ip_version.
Variables (dns_server : string) (domains : list string) (ip_mode : string).
Variables (timeout_sec 延迟下限_ms : Q) (开启污染检查 : pyval).
Variable w : World.

#[local] Abbreviation rtype := (query_rtype ip_address dns_server ip_mode).
#[local] Abbreviation outs :=
  (run_outcomes ip_address dns_server domains ip_mode timeout_sec w).
#[local] Abbreviation run :=
  (测试单个dns ip_address dns_server domains ip_mode timeout_sec
     延迟下限_ms 开启污染检查 w).

(** C4.  If any query of the run, successful or not, reports a latency
    below the threshold, the runner returns [None]; it does so right after
    the first such query, in the world that query left. *)
Theorem benchmark_aborts_below_threshold :
  Exists (fun out => latency_ms out < 延迟下限_ms) outs ->
  exists k out,
    outs !! k = Some out
    /\ latency_ms out < 延迟下限_ms
    /\ (forall j out', (j < k)%nat -> outs !! j = Some out' ->
          ~ latency_ms out' < 延迟下限_ms)
    /\ run = (Ok None,
              after_queries (take (S k) domains) dns_server rtype timeout_sec w).
Proof.
  intros Hex. destruct (first_fast_Exists _ _ Hex) as [k Hk].
  destruct (first_fast_spec _ _ _ Hk) as [(out & Hat & Hlt) Hbefore].
  exists k, out. do 3 (split; [assumption|]).
  unfold 测试单个dns. rewrite bind_run.
  pose proof (测试循环_run dns_server ip_mode timeout_sec 延迟下限_ms
                (是IPv4地址 ip_address dns_server) domains (mk累计 0 0 [] ∅) w) as Hloop.
  cbn zeta in Hloop. unfold run_outcomes, query_rtype in *.
  rewrite Hk in Hloop. rewrite Hloop. reflexivity.
Qed.

(** C5.  When no query of the run is below the threshold: without a
    successful query the runner returns [None]; otherwise it returns a
    record whose success rate is the number of successful queries over the
    number of domains, and whose average, minimum and maximum latency are
    those of the successful queries alone. *)
Theorem benchmark_statistics :
  Forall (fun out => ~ latency_ms out < 延迟下限_ms) outs ->
  let lats := successful_latencies outs in
  (lats = [] -> fst run = Ok None)
  /\ (lats <> [] ->
      exists r,
        fst run = Ok (Some r)
        /\ 成功率 r = inject_Z (Z.of_nat (length (List.filter success outs)))
                     / inject_Z (Z.of_nat (length domains))
        /\ 平均延迟_ms r = sum lats / inject_Z (Z.of_nat (length lats))
        /\ In (最小延迟_ms r) lats /\ Forall (fun x => 最小延迟_ms r <= x) lats
        /\ In (最大延迟_ms r) lats /\ Forall (fun x => x <= 最大延迟_ms r) lats).
Proof.
  intros Hall lats.
  pose proof (测试循环_run dns_server ip_mode timeout_sec 延迟下限_ms
                (是IPv4地址 ip_address dns_server) domains (mk累计 0 0 [] ∅) w) as Hloop.
  cbn zeta in Hloop. unfold run_outcomes, query_rtype in *.
  rewrite (first_fast_Forall _ _ Hall) in Hloop. destruct Hloop as [ds Hloop].
  cbn [总次数 成功次数 延迟列表 app Nat.add] in Hloop. fold lats in Hloop.
  unfold 测试单个dns. rewrite bind_run, Hloop. cbn [延迟列表 总次数 成功次数].
  split.
  - intros ->. reflexivity.
  - intros Hne. destruct lats as [|first others] eqn:El; [congruence|].
    assert (Hd : length domains <> 0%nat).
    { intros H0. subst lats. unfold successful_latencies in El.
      pose proof (查询序列_length domains dns_server
                    (记录类型 ip_mode (是IPv4地址 ip_address dns_server))
                    timeout_sec w) as Hl.
      rewrite H0 in Hl. destruct (查询序列 _ _ _ _ _); [discriminate El | discriminate Hl]. }
    destruct (length domains =? 0)%nat eqn:E0; [apply Nat.eqb_eq in E0; congruence|].
    eexists. split; [reflexivity|]. cbn [成功率 平均延迟_ms 最小延迟_ms 最大延迟_ms].
    split; [reflexivity|]. split; [reflexivity|].
    destruct (fold_Qmin_spec others first) as [? ?].
    destruct (fold_Qmax_spec others first) as [? ?].
    auto.
Qed.

(** The label of a record, as line 211 computes it. *)
Lemma 测试单个dns_label r w' :
  run = (Ok (Some r), w') ->
  dns污染 r = if truthy 开启污染检查 && Qltb (4 # 10) (成功率 r)
              then 待检测 else 未测试.
Proof.
  unfold 测试单个dns. rewrite bind_run.
  pose proof (测试循环_run dns_server ip_mode timeout_sec 延迟下限_ms
                (是IPv4地址 ip_address dns_server) domains (mk累计 0 0 [] ∅) w) as Hloop.
  cbn zeta in Hloop. destruct (first_fast _ _).
  - rewrite Hloop. discriminate.
  - destruct Hloop as [ds ->]. cbn [延迟列表 总次数 成功次数].
    destruct (_ ++ _) as [|first others]; [discriminate|].
    destruct (_ =? 0)%nat; [discriminate|].
    intros [= <- _]. reflexivity.
Qed.

(** C6, amended.  A record of the runner is 待检测 exactly when the check is
    switched on and its success rate is above 0.4; otherwise it is 未测试. *)
Theorem benchmark_pending_iff_enabled_and_rate r w' :
  run = (Ok (Some r), w') ->
  (dns污染 r = 待检测 <-> truthy 开启污染检查 = true /\ 4 # 10 < 成功率 r)
  /\ (dns污染 r = 待检测 \/ dns污染 r = 未测试).
Proof.
  intros Hrun. rewrite (测试单个dns_label r w' Hrun).
  rewrite <- Qltb_lt, <- andb_true_iff.
  destruct (truthy 开启污染检查 && Qltb (4 # 10) (成功率 r)).
  - split; [tauto | now left].
  - split; [split; discriminate | now right].
Qed.

End BenchmarkRunner.

(** A refusal after 2 ms aborts the run although the first query was
    answered well. *)
Lemma benchmark_aborts_below_threshold_witness :
  fst (测试单个dns sample_ip_address "8.8.8.8"
         ["google.com"; "facebook.com"; "amazon.com"] "4" (3 # 10) 10
         (PyInt 1) refusing_world)
  = Ok None.
Proof.
  destruct (benchmark_aborts_below_threshold sample_ip_address "8.8.8.8"
              ["google.com"; "facebook.com"; "amazon.com"] "4" (3 # 10) 10
              (PyInt 1) refusing_world)
    as (k & out & _ & _ & _ & ->).
  - vm_compute. apply Exists_cons_tl, Exists_cons_hd. reflexivity.
  - reflexivity.
Defined.

(** Two answers of 20 ms and one time-out: rate 2/3, latencies over the
    two answers. *)
Lemma benchmark_statistics_witness :
  exists r,
    fst (测试单个dns sample_ip_address "8.8.8.8"
           ["google.com"; "facebook.com"; "amazon.com"] "4" (3 # 10) 10
           (PyInt 1) lossy_world)
    = Ok (Some r)
    /\ 成功率 r == 2 # 3 /\ 平均延迟_ms r == 20
    /\ 最小延迟_ms r == 20 /\ 最大延迟_ms r == 20.
Proof.
  destruct (benchmark_statistics sample_ip_address "8.8.8.8"
              ["google.com"; "facebook.com"; "amazon.com"] "4" (3 # 10) 10
              (PyInt 1) lossy_world)
    as [_ H].
  - match goal with
    | |- Forall ?P ?l => let l' := eval vm_compute in l in change (Forall P l')
    end.
    repeat (apply List.Forall_cons; [intros H; vm_compute in H; discriminate H|]).
    apply List.Forall_nil.
  - destruct H as (r & Hr & Hrate & Havg & Hmin & _ & Hmax & _).
    + vm_compute. discriminate.
    + exists r. split; [exact Hr|]. rewrite Hrate, Havg.
      split; [reflexivity|]. split; [reflexivity|].
      match type of Hmin with
      | In ?x ?l => let l' := eval vm_compute in l in
                    change (In x l') in Hmin; change (In (最大延迟_ms r) l') in Hmax
      end.
      destruct Hmin as [<-|[<-|[]]]; destruct Hmax as [<-|[<-|[]]];
        split; reflexivity.
Defined.

Lemma benchmark_pending_iff_enabled_and_rate_witness :
  exists r,
    fst (测试单个dns sample_ip_address "8.8.8.8" ["google.com"] "4" (3 # 10) 10
           (PyInt 1) sample_world)
    = Ok (Some r)
    /\ (dns污染 r = 待检测 <-> truthy (PyInt 1) = true /\ 4 # 10 < 成功率 r).
Proof.
  set (p := 测试单个dns sample_ip_address "8.8.8.8" ["google.com"] "4" (3 # 10) 10
              (PyInt 1) sample_world).
  assert (E : exists r, fst p = Ok (Some r)) by (vm_compute; eauto).
  destruct E as [r E]. exists r. split; [exact E|].
  apply (benchmark_pending_iff_enabled_and_rate sample_ip_address "8.8.8.8"
           ["google.com"] "4" (3 # 10) 10 (PyInt 1) sample_world r (snd p)).
  rewrite <- E. apply surjective_pairing.
Defined.

(** C6, as stated, fails: with the check switched off a record whose
    success rate is 1 is 未测试. *)
Lemma benchmark_disabled_check_counterexample :
  exists r,
    fst (测试单个dns sample_ip_address "8.8.8.8" ["google.com"] "4" (3 # 10) 10
           (PyBool false) sample_world)
    = Ok (Some r)
    /\ 4 # 10 < 成功率 r
    /\ dns污染 r = 未测试
    /\ ~ (dns污染 r = 待检测 <-> 4 # 10 < 成功率 r).
Proof.
  eexists. split; [vm_compute; reflexivity|].
  split; [reflexivity|]. split; [reflexivity|].
  intros [_ H]. specialize (H eq_refl). discriminate H.
Qed.

(** ** Orchestrator: the name that is not bound *)

Lemma module_globals_unbound mmdb_available :
  module_globals mmdb_available !! "开启污染检查" = None.
Proof. destruct mmdb_available; vm_compute; reflexivity. Qed.

Lemma benchmark_pool_starts n :
  ThreadPoolExecutor (Z.max 1 (Z.min n 4096)) = Ok tt.
Proof.
  unfold ThreadPoolExecutor.
  destruct (Z.leb_spec (Z.max 1 (Z.min n 4096)) 0); [lia | reflexivity].
Qed.

(** Run as a script, [main] never gets past the benchmark: either there is
    no record and it exits with status 1, or reading 开启污染检查 raises. *)
Lemma main_script_never_reports ip_address mmdb_available cfg sch :
  main ip_address (module_globals mmdb_available) cfg sch
  = match 基准测试 ip_address cfg sch with
    | [] => Raise (SystemExit 1)
    | _ => Raise (NameError "开启污染检查")
    end.
Proof.
  unfold main. rewrite benchmark_pool_starts. cbn [mbind result_bind].
  destruct (基准测试 ip_address cfg sch); [reflexivity|].
  unfold load_global. rewrite module_globals_unbound. reflexivity.
Qed.

(** C3, at a valid input: three well-formed addresses, 64 workers, a
    threshold of 10 ms and a time-out of 300 ms.  Two name servers yield a
    record, and [main] raises [NameError]. *)
Theorem main_raises_NameError_on_valid_input :
  length (基准测试 sample_ip_address sample_config sample_schedule) = 2%nat
  /\ main sample_ip_address (module_globals true) sample_config sample_schedule
     = Raise (NameError "开启污染检查").
Proof. split; vm_compute; reflexivity. Qed.

(** ** Orchestrator: the labels *)

Lemma verdict_not_pending label : verdict label -> label <> 待检测.
Proof. intros [-> | ->]; discriminate. Qed.

Lemma 收集结果_from futures done : forall acc r,
  In r (收集结果 futures done acc) ->
  In r acc \/ exists i, futures !! i = Some (Ok (Some r)).
Proof.
  induction done as [|i done IH]; intros acc r; cbn [收集结果]; [auto|].
  destruct (futures !! i) as [[[res|]|e]|] eqn:E; intros H; apply IH in H; auto.
  destruct H as [H|H]; [|auto].
  apply in_app_or in H. destruct H as [H|[<-|[]]]; eauto.
Qed.

(** Every record of the benchmark phase is 待检测 exactly when its rate is
    above 0.4, and 未测试 otherwise. *)
Lemma 基准测试_labels ip_address cfg sch r :
  In r (基准测试 ip_address cfg sch) ->
  (dns污染 r = 待检测 <-> 4 # 10 < 成功率 r)
  /\ (dns污染 r = 待检测 \/ dns污染 r = 未测试).
Proof.
  unfold 基准测试. intros H. apply 收集结果_from in H.
  destruct H as [[]|[i H]].
  apply list_lookup_imap_Some in H. destruct H as (dns & _ & H).
  symmetry in H.
  assert (Hlabel : dns污染 r = if truthy (PyInt 1) && Qltb (4 # 10) (成功率 r)
                               then 待检测 else 未测试).
  { apply (测试单个dns_label ip_address dns (test_domains cfg) (ip_mode cfg)
             (per_query_timeout_sec cfg) (min_delay cfg) (PyInt 1)
             (bench_world sch i) r
             (snd (测试单个dns ip_address dns (test_domains cfg) (ip_mode cfg)
                     (per_query_timeout_sec cfg) (min_delay cfg) (PyInt 1)
                     (bench_world sch i)))).
    rewrite <- H. apply surjective_pairing. }
  cbn [truthy Z.eqb negb andb] in Hlabel. rewrite Hlabel, <- Qltb_lt.
  destruct (Qltb _ _).
  - split; [tauto | now left].
  - split; [split; discriminate | now right].
Qed.

(** What a future of the verification phase yields is a verdict. *)
Lemma 检测任务_verdict sch 结果列表 candidates p future :
  检测任务 sch 结果列表 candidates !! p = Some future ->
  verdict (match future with Ok v => v | Raise _ => 已污染 end).
Proof.
  unfold 检测任务. intros H.
  apply list_lookup_imap_Some in H. destruct H as (j & _ & ->).
  destruct (结果列表 !! j) as [r|]; [|now right].
  destruct (终极污染检测_run (dns_server r) (google_ips r) (verify_world sch p))
    as (w' & -> & _).
  cbn [fst]. destruct (_ && _); [now left | now right].
Qed.

(** The write-back touches labels only, and only those of candidates, to
    which it gives a verdict. *)
Lemma 回写结果_lookup candidates futures
    (Hv : forall p future, futures !! p = Some future ->
            verdict (match future with Ok v => v | Raise _ => 已污染 end))
    done : forall (结果列表 : list BenchmarkRecord) j r',
  回写结果 candidates futures done 结果列表 !! j = Some r' ->
  exists r, 结果列表 !! j = Some r /\ same_measurements r r'
    /\ (dns污染 r' = dns污染 r \/ (verdict (dns污染 r') /\ In j candidates)).
Proof.
  induction done as [|p done IH]; intros l j r' H; cbn [回写结果] in H.
  - exists r'. repeat split; auto.
  - destruct (candidates !! p) as [j0|] eqn:Ec; [|now apply IH].
    destruct (futures !! p) as [future|] eqn:Ef; [|now apply IH].
    apply IH in H. destruct H as (r1 & H1 & Hsame & Hlabel).
    rewrite list_lookup_alter in H1. destruct (decide (j0 = j)) as [->|Hne].
    + destruct (l !! j) as [r|] eqn:El; [|discriminate].
      cbn in H1. injection H1 as <-. exists r. split; [reflexivity|].
      split; [exact Hsame|]. right.
      assert (Hin : In j candidates).
      { apply list_elem_of_In, list_elem_of_lookup. eauto. }
      destruct Hlabel as [-> | [Hl _]]; [|auto].
      split; [|exact Hin]. cbn [dns污染 set_dns污染]. eapply Hv, Ef.
    + exists r1. auto.
Qed.

(** Once the future of a candidate has been handed back, the record of the
    candidate carries a verdict. *)
Lemma 回写结果_done candidates futures
    (Hv : forall p future, futures !! p = Some future ->
            verdict (match future with Ok v => v | Raise _ => 已污染 end))
    done : forall (结果列表 : list BenchmarkRecord) p j r',
  In p done ->
  candidates !! p = Some j ->
  is_Some (futures !! p) ->
  回写结果 candidates futures done 结果列表 !! j = Some r' ->
  verdict (dns污染 r').
Proof.
  induction done as [|p0 done IH]; intros l p j r' Hin Hc Hf H; [destruct Hin|].
  cbn [回写结果] in H. destruct Hin as [->|Hin].
  - rewrite Hc in H. destruct Hf as [future Hf]. rewrite Hf in H.
    destruct (回写结果_lookup candidates futures Hv done _ _ _ H)
      as (r1 & H1 & _ & Hlabel).
    destruct Hlabel as [Hl | [Hl _]]; [|exact Hl].
    rewrite list_lookup_alter in H1. destruct (decide (j = j)); [|congruence].
    destruct (l !! j) as [r|]; [|discriminate]. cbn in H1. injection H1 as <-.
    rewrite Hl. cbn [dns污染 set_dns污染]. eapply Hv, Hf.
  - destruct (candidates !! p0) as [j0|]; [|eapply IH; eassumption].
    destruct (futures !! p0) as [future|]; eapply IH; eassumption.
Qed.

Lemma 待检测候选_In 结果列表 j :
  In j (待检测候选 结果列表) <-> dns污染 <$> 结果列表 !! j = Some 待检测.
Proof.
  unfold 待检测候选. rewrite <- list_elem_of_In, list_elem_of_filter, elem_of_seq.
  split; [tauto|]. intros H. split; [exact H|].
  destruct (结果列表 !! j) eqn:E; [|discriminate].
  apply lookup_lt_Some in E. lia.
Qed.

Lemma 默认状态_lookup 结果列表 j r' :
  默认状态 结果列表 !! j = Some r' ->
  exists r, 结果列表 !! j = Some r /\ same_measurements r r'
    /\ (if bool_decide (dns污染 r = 待检测) then dns污染 r' = 未测试
        else dns污染 r' = dns污染 r).
Proof.
  unfold 默认状态. rewrite list_lookup_fmap.
  destruct (结果列表 !! j) as [r|]; [|discriminate].
  cbn. intros [= <-]. exists r. split; [reflexivity|].
  destruct (bool_decide (dns污染 r = 待检测)); repeat split.
Qed.

(** ** Orchestrator: the order of the report *)

Lemma cell_compare_antisym a b :
  cell_compare b a = CompOpp (cell_compare a b).
Proof.
  destruct a as [x|s], b as [y|t]; cbn; try reflexivity.
  - symmetry. apply Qcompare_antisym.
  - apply String.compare_antisym.
Qed.

Lemma row_compare_antisym keys r1 r2 :
  row_compare keys r2 r1 = CompOpp (row_compare keys r1 r2).
Proof.
  induction keys as [|[col ascending] keys IH]; cbn [row_compare]; [reflexivity|].
  rewrite (cell_compare_antisym (col r1) (col r2)).
  destruct (cell_compare (col r1) (col r2)), ascending; cbn; auto.
Qed.

Lemma row_le_total keys : Total (row_le keys).
Proof.
  intros r1 r2. unfold row_le, row_leb. rewrite (row_compare_antisym keys r1 r2).
  destruct (row_compare keys r1 r2); cbn; auto.
Qed.

(** The sort returns the rows it was given, in order. *)
Lemma insert_row_Permutation keys r l : insert_row keys r l ≡ₚ r :: l.
Proof.
  induction l as [|r' l IH]; cbn [insert_row]; [reflexivity|].
  destruct (row_leb keys r r'); [reflexivity|].
  rewrite IH. apply Permutation_swap.
Qed.

Lemma lexsort_Permutation keys l : lexsort keys l ≡ₚ l.
Proof.
  induction l as [|r l IH]; [reflexivity|].
  change (lexsort keys (r :: l)) with (insert_row keys r (lexsort keys l)).
  now rewrite insert_row_Permutation, IH.
Qed.

Lemma insert_row_HdRel keys a r l :
  row_le keys a r -> HdRel (row_le keys) a l ->
  HdRel (row_le keys) a (insert_row keys r l).
Proof.
  intros Har Hl. destruct l as [|r' l]; cbn [insert_row]; [now constructor|].
  destruct (row_leb keys r r'); constructor; [exact Har|].
  now inversion Hl.
Qed.

Lemma insert_row_Sorted keys r l :
  Sorted (row_le keys) l -> Sorted (row_le keys) (insert_row keys r l).
Proof.
  induction 1 as [|r' l HS IH Hhd]; cbn [insert_row].
  - repeat constructor.
  - destruct (row_leb keys r r') eqn:E.
    + constructor; [now constructor|]. constructor. exact E.
    + constructor; [exact IH|]. apply insert_row_HdRel; [|exact Hhd].
      destruct (row_le_total keys r r') as [H|H]; [|exact H].
      unfold row_le in H. congruence.
Qed.

Lemma Sorted_lexsort keys l : Sorted (row_le keys) (lexsort keys l).
Proof.
  induction l as [|r l IH]; [constructor|].
  change (lexsort keys (r :: l)) with (insert_row keys r (lexsort keys l)).
  now apply insert_row_Sorted.
Qed.

Lemma report_le_trans : Transitive report_le.
Proof.
  intros r1 r2 r3. unfold report_le.
  intros [H12 | [E12 [A12 | [F12 L12]]]] [H23 | [E23 [A23 | [F23 L23]]]];
    first [ left; lra
          | right; split; [lra|]; left; lra
          | right; split; [lra|]; right; split; [lra | lia] ].
Qed.

(** A list sorted for one order is sorted for another that agrees with it
    on the elements of the list. *)
Lemma Sorted_on {A} (R R' : relation A) (P : A -> Prop) l :
  (forall x y, P x -> P y -> R x y -> R' x y) ->
  Forall P l -> Sorted R l -> Sorted R' l.
Proof.
  intros HR HP HS. induction HS as [|x l HS IH Hhd]; [constructor|].
  apply Forall_cons in HP. destruct HP as [Px Pl].
  constructor; [now apply IH|].
  destruct Hhd as [|y l' Hxy]; constructor.
  apply Forall_cons in Pl. destruct Pl as [Py _]. now apply HR.
Qed.

(** On records labelled by their rate, the order of the sort keys is the
    order with 未污染 first. *)
Lemma row_le_report_le r1 r2 :
  labelled_by_rate r1 -> labelled_by_rate r2 ->
  row_le report_keys r1 r2 -> report_le r1 r2.
Proof.
  intros [Hv1 Hu1] [Hv2 Hu2]. unfold row_le, row_leb, report_keys, report_le.
  cbn [row_compare cell_compare].
  destruct (Qcompare_spec (成功率 r1) (成功率 r2)) as [Er|Hr|Hr]; cbn [CompOpp].
  - destruct (Qcompare_spec (平均延迟_ms r1) (平均延迟_ms r2)) as [Ea|Ha|Ha].
    + intros Hs. right. split; [exact Er|]. right. split; [exact Ea|].
      destruct (Qlt_le_dec (4 # 10) (成功率 r1)) as [Hgt|Hle].
      * assert (Hgt2 : 4 # 10 < 成功率 r2) by lra.
        destruct (Hv1 Hgt) as [E1|E1]; destruct (Hv2 Hgt2) as [E2|E2];
          rewrite E1, E2 in *; try (cbn; lia).
        vm_compute in Hs. discriminate Hs.
      * rewrite Hu1, Hu2 by lra. cbn. lia.
    + intros _. right. split; [exact Er|]. left. exact Ha.
    + discriminate.
  - discriminate.
  - intros _. left. exact Hr.
Qed.

(** Step 9 leaves no record 待检测, whatever it is given. *)
Lemma 默认状态_no_pending 结果列表 :
  Forall (fun r => dns污染 r <> 待检测) (默认状态 结果列表).
Proof.
  apply Forall_forall. intros r Hin.
  apply list_elem_of_lookup in Hin. destruct Hin as [j Hj].
  apply 默认状态_lookup in Hj. destruct Hj as (r1 & _ & _ & Hl).
  case_bool_decide as Hp; [rewrite Hl; discriminate | congruence].
Qed.

Section Report.

Variable ip_address : string -> option ip_version.
Variables (globals : gmap string pyval) (cfg : Config) (sch : Schedule).

(** The label of every record after steps 8 and 9, whatever the switch
    says and whichever futures came back. *)
Lemma labels_after_step9 threads flag 结果列表 r :
  (if flag : bool then 污染检测 threads sch (基准测试 ip_address cfg sch)
   else Ok (基准测试 ip_address cfg sch)) = Ok 结果列表 ->
  In r (默认状态 结果列表) ->
  dns污染 r = 未测试 \/ verdict (dns污染 r).
Proof.
  intros Hrun Hin.
  apply list_elem_of_In, list_elem_of_lookup in Hin. destruct Hin as [j Hj].
  apply 默认状态_lookup in Hj. destruct Hj as (r1 & H1 & _ & Hl).
  case_bool_decide as Hp; [now left|]. rewrite Hl.
  assert (Hbase : forall r0, In r0 (基准测试 ip_address cfg sch) ->
                   dns污染 r0 = 待检测 \/ dns污染 r0 = 未测试)
    by (intros r0 H0; apply (基准测试_labels ip_address cfg sch r0 H0)).
  assert (Hdone : 结果列表 = 基准测试 ip_address cfg sch ->
                  dns污染 r1 = 未测试 \/ verdict (dns污染 r1)).
  { intros ->. destruct (Hbase r1) as [?|?]; [|congruence|now left].
    apply list_elem_of_In, list_elem_of_lookup. eauto. }
  destruct flag; [|injection Hrun as <-; now apply Hdone].
  unfold 污染检测 in Hrun.
  destruct (待检测候选 (基准测试 ip_address cfg sch)) as [|c cs] eqn:Ec;
    [injection Hrun as <-; now apply Hdone|].
  destruct (ThreadPoolExecutor (threads / 4)); [|discriminate].
  cbn [mbind result_bind] in Hrun. injection Hrun as <-.
  apply 回写结果_lookup in H1; [|apply 检测任务_verdict].
  destruct H1 as (r0 & H0 & _ & [Hsame | [Hv _]]); [|now right].
  rewrite Hsame. destruct (Hbase r0) as [E|E]; [| |now left].
  - apply list_elem_of_In, list_elem_of_lookup. eauto.
  - congruence.
Qed.

(** What [main] goes through when it returns a report. *)
Lemma main_Ok report :
  main ip_address globals cfg sch = Ok report ->
  exists flag 结果列表,
    globals !! "开启污染检查" = Some flag
    /\ truthy flag = true
    /\ 污染检测 (Z.max 1 (Z.min (threads_input cfg) 4096)) sch
         (基准测试 ip_address cfg sch) = Ok 结果列表
    /\ report = lexsort report_keys (默认状态 结果列表).
Proof.
  unfold main. rewrite benchmark_pool_starts. cbn [mbind result_bind].
  destruct (基准测试 ip_address cfg sch) as [|r0 rs] eqn:Eb; [discriminate|].
  unfold load_global. destruct (globals !! "开启污染检查") as [flag|]; [|discriminate].
  cbn [mbind result_bind]. destruct (truthy flag) eqn:Et.
  - destruct (污染检测 _ _ _) as [结果列表|e]; [|discriminate].
    cbn [mbind result_bind]. intros H. exists flag, 结果列表.
    split; [reflexivity|]. split; [exact Et|]. split; [reflexivity|].
    unfold sort_values in H. cbn in H. injection H as <-. reflexivity.
  - cbn [mbind result_bind]. discriminate.
Qed.

(** C7.  No record of the report that [main] hands to the export is
    待检测: each is 未测试, 未污染 or 已污染. *)
Theorem report_has_no_pending_record report :
  main ip_address globals cfg sch = Ok report ->
  Forall (fun r => dns污染 r <> 待检测
                   /\ (dns污染 r = 未测试 \/ dns污染 r = 未污染
                       \/ dns污染 r = 已污染)) report.
Proof.
  intros Hmain. destruct (main_Ok report Hmain) as (flag & l & _ & _ & Hrun & ->).
  rewrite lexsort_Permutation. apply Forall_forall. intros r Hin.
  apply list_elem_of_In in Hin.
  destruct (labels_after_step9 _ true l r Hrun Hin) as [E|E].
  - rewrite E. split; [discriminate | now left].
  - split; [now apply verdict_not_pending | right; exact E].
Qed.

(** With every verification future handed back, the labels follow the
    rate: a verdict above 0.4, 未测试 otherwise. *)
Lemma labels_follow_rate 结果列表 r :
  hands_back_all (verify_done sch)
    (length (待检测候选 (基准测试 ip_address cfg sch))) ->
  污染检测 (Z.max 1 (Z.min (threads_input cfg) 4096)) sch
    (基准测试 ip_address cfg sch) = Ok 结果列表 ->
  In r (默认状态 结果列表) ->
  labelled_by_rate r.
Proof.
  intros Hall Hrun Hin.
  apply list_elem_of_In, list_elem_of_lookup in Hin. destruct Hin as [j Hj].
  apply 默认状态_lookup in Hj. destruct Hj as (r1 & H1 & (_ & Hrate & _) & Hl).
  set (base := 基准测试 ip_address cfg sch) in *.
  assert (Hbase : forall r0, base !! j = Some r0 ->
            (dns污染 r0 = 待检测 <-> 4 # 10 < 成功率 r0)
            /\ (dns污染 r0 = 待检测 \/ dns污染 r0 = 未测试)).
  { intros r0 H0. apply (基准测试_labels ip_address cfg sch).
    apply list_elem_of_In, list_elem_of_lookup. eauto. }
  assert (Hcand : forall r0, base !! j = Some r0 ->
            (In j (待检测候选 base) <-> dns污染 r0 = 待检测)).
  { intros r0 H0. rewrite 待检测候选_In, H0. cbn. split; congruence. }
  unfold labelled_by_rate. rewrite Hrate.
  unfold 污染检测 in Hrun. fold base in Hrun.
  destruct (待检测候选 base) as [|c cs] eqn:Ec.
  - injection Hrun as <-. destruct (Hbase r1 H1) as [Hiff Hor].
    assert (Hnp : dns污染 r1 <> 待检测)
      by (intros E; apply (Hcand r1 H1) in E; destruct E).
    rewrite bool_decide_eq_false_2 in Hl by exact Hnp. rewrite Hl.
    split; [intros Hgt; apply Hiff in Hgt; congruence|].
    intros _. destruct Hor; congruence.
  - destruct (ThreadPoolExecutor _); [|discriminate].
    cbn [mbind result_bind] in Hrun. injection Hrun as <-.
    rewrite <- Ec in *. clear Ec c cs.
    pose proof H1 as H1'.
    apply 回写结果_lookup in H1'; [|apply 检测任务_verdict].
    destruct H1' as (r0 & H0 & (_ & Hrate0 & _) & Hlabel).
    destruct (Hbase r0 H0) as [Hiff Hor]. rewrite Hrate0.
    split.
    + intros Hgt. apply Hiff in Hgt. pose proof Hgt as Hj.
      apply (Hcand r0 H0), list_elem_of_In, list_elem_of_lookup in Hj.
      destruct Hj as [p Hp].
      assert (Hv : verdict (dns污染 r1)).
      { eapply 回写结果_done; [apply 检测任务_verdict | | exact Hp | | exact H1].
        - apply Hall. now apply lookup_lt_Some in Hp.
        - apply lookup_lt_is_Some. unfold 检测任务. rewrite length_imap.
          now apply lookup_lt_Some in Hp. }
      rewrite bool_decide_eq_false_2 in Hl by now apply verdict_not_pending.
      now rewrite Hl.
    + intros Hle.
      assert (Hnp : dns污染 r0 <> 待检测) by (rewrite Hiff; exact Hle).
      assert (E : dns污染 r1 = 未测试).
      { destruct Hlabel as [-> | [_ Hj]].
        - destruct Hor; congruence.
        - apply (Hcand r0 H0) in Hj. congruence. }
      rewrite E in Hl. cbn in Hl. congruence.
Qed.

(** C8.  The report is sorted by success rate descending, then by average
    latency ascending, then with 未污染 ahead of the other labels. *)
Theorem report_is_ranked report :
  hands_back_all (verify_done sch)
    (length (待检测候选 (基准测试 ip_address cfg sch))) ->
  main ip_address globals cfg sch = Ok report ->
  StronglySorted report_le report.
Proof.
  intros Hall Hmain.
  destruct (main_Ok report Hmain) as (flag & l & _ & _ & Hrun & ->).
  apply Sorted_StronglySorted; [apply report_le_trans|].
  apply (Sorted_on (row_le report_keys) report_le labelled_by_rate).
  - apply row_le_report_le.
  - rewrite lexsort_Permutation. apply Forall_forall. intros r Hin.
    apply list_elem_of_In in Hin. now apply (labels_follow_rate l r Hall Hrun).
  - apply Sorted_lexsort.
Qed.

End Report.

(** The sample run with the name bound: two records, none 待检测. *)
Lemma report_has_no_pending_record_witness :
  exists report,
    main sample_ip_address patched_globals sample_config sample_schedule
    = Ok report
    /\ map dns_server report = ["8.8.8.8"; "203.0.113.7"]
    /\ Forall (fun r => dns污染 r <> 待检测
                        /\ (dns污染 r = 未测试 \/ dns污染 r = 未污染
                            \/ dns污染 r = 已污染)) report.
Proof.
  eexists. split; [vm_compute; reflexivity|]. split; [reflexivity|].
  apply (report_has_no_pending_record sample_ip_address patched_globals
           sample_config sample_schedule).
  vm_compute. reflexivity.
Defined.

Lemma report_is_ranked_witness :
  exists report,
    main sample_ip_address patched_globals sample_config sample_schedule
    = Ok report
    /\ map dns污染 report = [未污染; 已污染]
    /\ StronglySorted report_le report.
Proof.
  eexists. split; [vm_compute; reflexivity|]. split; [reflexivity|].
  apply (report_is_ranked sample_ip_address patched_globals
           sample_config sample_schedule).
  - assert (E : length (待检测候选 (基准测试 sample_ip_address sample_config
                                      sample_schedule)) = 2%nat)
      by (vm_compute; reflexivity).
    rewrite E. intros p Hp.
    destruct p as [|[|p]]; [right; left; reflexivity | left; reflexivity | lia].
  - vm_compute. reflexivity.
Defined.

(** The sort keys by themselves put 未测试 ahead of 未污染 and 未污染 ahead of
    已污染: the label column is sorted in descending string order.  In a
    report of [main] two records that tie on rate and latency are never
    one 未测试 and one 未污染, which is why the order above holds. *)
Lemma label_column_order r :
  let unverified := set_dns污染 未测试 r in
  let clean := set_dns污染 未污染 r in
  let polluted := set_dns污染 已污染 r in
  row_le report_keys unverified clean
  /\ ~ row_le report_keys clean unverified
  /\ row_le report_keys clean polluted
  /\ ~ row_le report_keys polluted clean.
Proof.
  cbn zeta. unfold row_le, row_leb, report_keys.
  cbn [row_compare cell_compare set_dns污染 成功率 平均延迟_ms dns污染].
  assert (Hr : Qcompare (成功率 r) (成功率 r) = Eq) by (apply Qeq_alt; reflexivity).
  assert (Ha : Qcompare (平均延迟_ms r) (平均延迟_ms r) = Eq)
    by (apply Qeq_alt; reflexivity).
  rewrite Hr, Ha. cbn [CompOpp].
  repeat split; try (vm_compute; reflexivity); vm_compute; discriminate.
Qed.

(** * More properties of the script *)

(** ** The candidate list *)

Section CandidateList.

Variable ip_address : string -> option ip_version.
Variable strip : string -> string.
Variable split : string -> list string.

Lemma 首个地址_find parts :
  首个地址 ip_address parts
  = List.find (fun part => bool_decide (is_Some (ip_address part))) parts.
Proof.
  induction parts as [|part rest IH]; cbn [首个地址 List.find]; [reflexivity|].
  destruct (ip_address part) as [v|].
  - rewrite bool_decide_eq_true_2 by eauto. reflexivity.
  - rewrite bool_decide_eq_false_2 by (intros [? ?]; discriminate). exact IH.
Qed.

Lemma 逐行解析_omap lines : forall dns_list,
  逐行解析 ip_address strip split lines dns_list
  = dns_list ++ omap (line_address ip_address strip split) lines.
Proof.
  induction lines as [|line rest IH]; intros acc;
    cbn [逐行解析 omap list_omap]; [now rewrite app_nil_r|].
  unfold line_address at 1. rewrite <- 首个地址_find.
  destruct (String.eqb (strip line) ""); [apply IH|].
  destruct (首个地址 ip_address (split (strip line))) as [part|]; [|apply IH].
  rewrite IH, <- app_assoc. reflexivity.
Qed.

Lemma omap_length_le {A B} (f : A -> option B) l :
  (length (omap f l) <= length l)%nat.
Proof.
  induction l as [|x l IH]; cbn [omap list_omap length]; [lia|].
  destruct (f x); cbn [length]; lia.
Qed.

Lemma 逐行解析_valid lines :
  Forall (fun ip => is_Some (ip_address ip))
         (omap (line_address ip_address strip split) lines).
Proof.
  apply Forall_forall. intros ip Hin. apply list_elem_of_omap in Hin.
  destruct Hin as (line & _ & Hline). unfold line_address in Hline.
  destruct (String.eqb (strip line) ""); [discriminate|].
  apply find_some in Hline. destruct Hline as [_ H].
  now apply bool_decide_eq_true in H.
Qed.

Lemma dual_stack_Permutation dns_list :
  Forall (fun ip => is_Some (ip_address ip)) dns_list ->
  List.filter (fun ip => bool_decide (ip_address ip = Some IPv4Address)) dns_list
  ++ List.filter (fun ip => bool_decide (ip_address ip = Some IPv6Address)) dns_list
  ≡ₚ dns_list.
Proof.
  intros Hall. induction Hall as [|ip rest [v Hv] _ IH]; [reflexivity|].
  cbn [List.filter]. rewrite Hv. destruct v.
  - rewrite bool_decide_eq_true_2, bool_decide_eq_false_2 by congruence.
    cbn. now rewrite IH.
  - rewrite bool_decide_eq_false_2, bool_decide_eq_true_2 by congruence.
    rewrite <- Permutation_middle. now rewrite IH.
Qed.

(** X1.  Every entry of the downloaded list is a well-formed address, and
    there is at most one entry for each line. *)
Theorem downloaded_entries_are_addresses lines :
  exists dns_list,
    读取_dns列表 ip_address strip split (Ok lines) = Ok dns_list
    /\ Forall (fun ip => is_Some (ip_address ip)) dns_list
    /\ (length dns_list <= length lines)%nat.
Proof.
  eexists. split; [reflexivity|]. rewrite 逐行解析_omap. cbn [app].
  split; [apply 逐行解析_valid | apply omap_length_le].
Qed.

(** X2.  The entry of a line is its first part that is an address; blank
    lines, lines without an address and further addresses on a line
    contribute nothing; the entries come in the order of the lines; and a
    failed download is passed on. *)
Theorem downloaded_list_by_line response :
  读取_dns列表 ip_address strip split response
  = match response with
    | Ok lines => Ok (omap (line_address ip_address strip split) lines)
    | Raise e => Raise e
    end.
Proof.
  destruct response as [lines|e]; [|reflexivity].
  cbn. now rewrite 逐行解析_omap.
Qed.

Lemma 分拣_filter dns_list : forall v4 v6,
  分拣 ip_address dns_list v4 v6
  = (v4 ++ List.filter (fun ip => bool_decide (ip_address ip = Some IPv4Address))
             dns_list,
     v6 ++ List.filter (fun ip => bool_decide (ip_address ip = Some IPv6Address))
             dns_list).
Proof.
  induction dns_list as [|ip rest IH]; intros v4 v6; cbn [分拣 List.filter].
  - now rewrite !app_nil_r.
  - destruct (ip_address ip) as [[|]|]; rewrite IH; cbn;
      rewrite <- ?app_assoc; reflexivity.
Qed.

(** X3.  An address is in the filtered list exactly when it is in the
    given list, is well formed and belongs to a family of the mode: IPv4
    for "4", IPv6 for "6", either for any other mode. *)
Theorem family_filter_membership dns_list mode ip :
  In ip (按IP版本过滤 ip_address dns_list mode)
  <-> In ip dns_list
      /\ exists v, ip_address ip = Some v /\ family_ok mode v = true.
Proof.
  unfold 按IP版本过滤, family_ok. rewrite 分拣_filter. cbn [app].
  destruct (String.eqb mode "4"); [|destruct (String.eqb mode "6")];
    rewrite ?in_app_iff, !filter_In, ?bool_decide_eq_true.
  - split.
    + intros [H E]. eauto.
    + intros [H (v & E & F)]. destruct v; [auto | discriminate].
  - split.
    + intros [H E]. eauto.
    + intros [H (v & E & F)]. destruct v; [discriminate | auto].
  - split.
    + intros [[H E]|[H E]]; eauto.
    + intros [H (v & E & _)]. destruct v; auto.
Qed.

(** X4.  In dual-stack mode, which is any mode other than "4" and "6",
    the filtered list is the IPv4 entries in their order followed by the
    IPv6 entries in their order; and of a list of well-formed addresses
    nothing is lost. *)
Theorem family_filter_dual_stack dns_list mode :
  mode <> "4" -> mode <> "6" ->
  按IP版本过滤 ip_address dns_list mode
  = 按IP版本过滤 ip_address dns_list "4" ++ 按IP版本过滤 ip_address dns_list "6"
  /\ 按IP版本过滤 ip_address dns_list "4"
     = List.filter (fun ip => bool_decide (ip_address ip = Some IPv4Address))
         dns_list
  /\ 按IP版本过滤 ip_address dns_list "6"
     = List.filter (fun ip => bool_decide (ip_address ip = Some IPv6Address))
         dns_list
  /\ (Forall (fun ip => is_Some (ip_address ip)) dns_list ->
      按IP版本过滤 ip_address dns_list mode ≡ₚ dns_list).
Proof.
  intros H4 H6. unfold 按IP版本过滤. rewrite 分拣_filter. cbn [app].
  apply String.eqb_neq in H4, H6. rewrite H4, H6. cbn.
  do 3 (split; [reflexivity|]).
  apply dual_stack_Permutation.
Qed.

(** X5.  Parsing and filtering compose: in dual-stack mode every address
    of the downloaded list is kept. *)
Theorem dual_stack_keeps_the_download lines :
  exists dns_list,
    读取_dns列表 ip_address strip split (Ok lines) = Ok dns_list
    /\ 按IP版本过滤 ip_address dns_list "46" ≡ₚ dns_list.
Proof.
  eexists. split; [reflexivity|].
  unfold 按IP版本过滤. rewrite 分拣_filter, 逐行解析_omap. cbn.
  apply dual_stack_Permutation, 逐行解析_valid.
Qed.

End CandidateList.

Lemma family_filter_dual_stack_witness :
  按IP版本过滤 sample_parse ["8.8.8.8"; "2001:4860:4860::8888"; "x"; "1.1.1.1"] "46"
  = ["8.8.8.8"; "1.1.1.1"; "2001:4860:4860::8888"].
Proof.
  destruct (family_filter_dual_stack sample_parse
              ["8.8.8.8"; "2001:4860:4860::8888"; "x"; "1.1.1.1"] "46")
    as (-> & -> & -> & _); [discriminate | discriminate | reflexivity].
Defined.

(** ** IP ownership lookup *)

Lemma prefix_nil t : String.prefix "" t = true.
Proof. destruct t; reflexivity. Qed.

Lemma prefix_app_r k t u :
  String.prefix k t = true -> String.prefix k (t +:+ u) = true.
Proof.
  revert t. induction k as [|c k IH]; intros t; [intros _; apply prefix_nil|].
  destruct t as [|d t]; [discriminate|].
  change (String d t +:+ u) with (String d (t +:+ u)). cbn [String.prefix].
  destruct (ascii_dec c d); [apply IH | discriminate].
Qed.

Lemma contains_nil t : contains "" t = true.
Proof. destruct t; reflexivity. Qed.

Lemma contains_app_r k t u :
  contains k t = true -> contains k (t +:+ u) = true.
Proof.
  induction t as [|c t IH].
  - destruct k; [intros _; apply contains_nil | discriminate].
  - change (String c t +:+ u) with (String c (t +:+ u)). cbn [contains].
    intros H. apply orb_true_iff in H. apply orb_true_iff.
    destruct H as [H|H]; [left | right; now apply IH].
    now apply (prefix_app_r k (String c t) u).
Qed.

Lemma contains_app_l k t u :
  contains k t = true -> contains k (u +:+ t) = true.
Proof.
  intros H. induction u as [|c u IH]; [exact H|].
  change (String c u +:+ t) with (String c (u +:+ t)). cbn [contains].
  rewrite IH. apply orb_true_r.
Qed.

Lemma prefix_shorter k s t :
  String.prefix (k +:+ s) t = true -> String.prefix k t = true.
Proof.
  revert t. induction k as [|c k IH]; intros t; [intros _; apply prefix_nil|].
  change (String c k +:+ s) with (String c (k +:+ s)).
  destruct t as [|d t]; cbn [String.prefix]; [discriminate|].
  destruct (ascii_dec c d); [apply IH | discriminate].
Qed.

Lemma contains_shorter k s t :
  contains (k +:+ s) t = true -> contains k t = true.
Proof.
  induction t as [|c t IH]; cbn [contains]; intros H;
    apply orb_true_iff in H; apply orb_true_iff; destruct H as [H|H].
  - left. now apply prefix_shorter in H.
  - discriminate.
  - left. now apply prefix_shorter in H.
  - right. now apply IH.
Qed.

(** Three of the six keywords decide the match. *)
Lemma 匹配关键词_three response :
  匹配关键词 response
  = contains "google" (org_text response)
    || contains "alphabet" (org_text response)
    || contains "gcp" (org_text response).
Proof.
  unfold 匹配关键词, google_keywords. cbn [existsb].
  set (t := org_text response).
  pose proof (contains_shorter "google" " llc" t) as H1.
  pose proof (contains_shorter "google" " cloud" t) as H2.
  pose proof (contains_shorter "google" ".com" t) as H3.
  change ("google" +:+ " llc") with "google llc" in H1.
  change ("google" +:+ " cloud") with "google cloud" in H2.
  change ("google" +:+ ".com") with "google.com" in H3.
  destruct (contains "google" t); [reflexivity|].
  destruct (contains "google llc" t); [now specialize (H1 eq_refl)|].
  destruct (contains "google cloud" t); [now specialize (H2 eq_refl)|].
  destruct (contains "google.com" t); [now specialize (H3 eq_refl)|].
  cbn. now rewrite orb_false_r.
Qed.

(** X6.  The lookup never raises, and it answers true exactly when the
    database in effect has a non-empty record for the address whose
    organisation text contains "google", "alphabet" or "gcp"; the keywords
    "google llc", "google cloud" and "google.com" add nothing. *)
Theorem classification_by_three_keywords ip w :
  exists b w',
    检查_google_ip ip w = (Ok b, w')
    /\ (b = true <->
        exists reader response,
          reader_in_effect w = Some reader
          /\ reader ip = Found response
          /\ response <> ∅
          /\ (contains "google" (org_text response) = true
              \/ contains "alphabet" (org_text response) = true
              \/ contains "gcp" (org_text response) = true)).
Proof.
  rewrite 检查_google_ip_run. eexists; eexists. split; [reflexivity|].
  unfold google, classify.
  destruct (reader_in_effect w) as [reader|];
    [|split; [discriminate | intros (? & ? & [=] & _)]].
  destruct (reader ip) as [response| |] eqn:E;
    [| split; [discriminate | intros (? & ? & [= <-] & ? & _); congruence] ..].
  case_bool_decide as Hne.
  - split; [discriminate|]. intros (? & ? & [= <-] & E' & Hn & _).
    rewrite E in E'. congruence.
  - rewrite 匹配关键词_three, !orb_true_iff. split.
    + intros H. exists reader, response. repeat split; auto. tauto.
    + intros (? & ? & [= <-] & E' & _ & H). rewrite E in E'.
      injection E' as <-. tauto.
Qed.

Lemma org_text_fields response :
  org_text response
  = lower (default "" (response !! "autonomous_system_organization"))
    +:+ " " +:+ lower (default "" (response !! "organization"))
    +:+ " " +:+ lower (default "" (response !! "isp")).
Proof. reflexivity. Qed.

(** X7.  The match is a substring match that ignores ASCII case and looks
    at each of the three organisation fields: an address whose record has a
    keyword inside any of them, in any case, is classified as Google. *)
Theorem keyword_in_any_field ip w reader response field value keyword :
  reader_in_effect w = Some reader ->
  reader ip = Found response ->
  In field org_fields ->
  response !! field = Some value ->
  In keyword google_keywords ->
  contains keyword (lower value) = true ->
  fst (检查_google_ip ip w) = Ok true.
Proof.
  intros Hrd Hip Hf Hv Hk Hc. rewrite 检查_google_ip_run. cbn [fst].
  unfold google, classify. rewrite Hrd, Hip.
  rewrite bool_decide_eq_false_2
    by (intros ->; rewrite lookup_empty in Hv; discriminate).
  f_equal. unfold 匹配关键词. apply existsb_exists. exists keyword.
  split; [exact Hk|]. rewrite org_text_fields.
  destruct Hf as [<-|[<-|[<-|[]]]]; rewrite Hv; cbn [default from_option id].
  - now apply contains_app_r.
  - apply contains_app_l, contains_app_l, contains_app_r. exact Hc.
  - do 4 apply contains_app_l. exact Hc.
Qed.

Lemma keyword_in_any_field_witness :
  fst (检查_google_ip "142.250.0.1" sample_world) = Ok true.
Proof.
  apply (keyword_in_any_field "142.250.0.1" sample_world sample_reader
           {[ "autonomous_system_organization" := "GOOGLE" ]}
           "autonomous_system_organization" "GOOGLE" "google").
  - reflexivity.
  - reflexivity.
  - left. reflexivity.
  - reflexivity.
  - left. reflexivity.
  - reflexivity.
Defined.

Lemma loaded_reader w : _ip_mmdb_reader (loaded w) = reader_in_effect w.
Proof.
  unfold loaded, reader_in_effect.
  destruct (_ip_mmdb_reader w) eqn:E; [exact E | reflexivity].
Qed.

(** X8.  The database is loaded at the first lookup and kept: once a
    lookup has loaded it, later lookups answer from it whatever happens to
    the file. *)
Theorem reader_is_loaded_once w reader ip1 :
  MMDB_AVAILABLE w = true ->
  mmdb_file w = FileHolds reader ->
  _ip_mmdb_reader w = None ->
  let w1 := snd (检查_google_ip ip1 w) in
  _ip_mmdb_reader w1 = Some reader
  /\ forall file ip2,
       检查_google_ip ip2 (with_mmdb_file file w1)
       = (Ok (classify (Some reader) ip2), with_mmdb_file file w1).
Proof.
  intros Hav Hfile Hglobal. cbn zeta. rewrite 检查_google_ip_run. cbn [snd].
  assert (E : _ip_mmdb_reader (loaded w) = Some reader).
  { rewrite loaded_reader. unfold reader_in_effect.
    now rewrite Hglobal, Hav, Hfile. }
  split; [exact E|]. intros file ip2. rewrite 检查_google_ip_run.
  set (w1 := loaded w) in *.
  unfold google, loaded, reader_in_effect.
  cbn [with_mmdb_file _ip_mmdb_reader]. now rewrite E.
Qed.

Lemma reader_is_loaded_once_witness :
  fst (检查_google_ip "10.0.0.1"
         (with_mmdb_file FileMissing
            (snd (检查_google_ip "142.250.0.1" sample_world))))
  = Ok false
  /\ fst (检查_google_ip "142.250.0.2"
            (with_mmdb_file FileMissing
               (snd (检查_google_ip "142.250.0.1" sample_world))))
     = Ok true.
Proof.
  destruct (reader_is_loaded_once sample_world sample_reader "142.250.0.1"
              eq_refl eq_refl eq_refl) as [_ H].
  rewrite !H. split; reflexivity.
Defined.

(** X9.  A load that failed is not remembered: the global stays unset, and
    the next lookup loads again, so a database that appears later is
    used. *)
Theorem failed_load_is_retried w ip1 :
  reader_in_effect w = None ->
  let w1 := snd (检查_google_ip ip1 w) in
  fst (检查_google_ip ip1 w) = Ok false
  /\ _ip_mmdb_reader w1 = None
  /\ forall reader ip2,
       MMDB_AVAILABLE w = true ->
       fst (检查_google_ip ip2 (with_mmdb_file (FileHolds reader) w1))
       = Ok (classify (Some reader) ip2).
Proof.
  intros Hnone. cbn zeta. rewrite 检查_google_ip_run. cbn [fst snd].
  assert (E : _ip_mmdb_reader (loaded w) = None)
    by now rewrite loaded_reader.
  split; [unfold google; now rewrite Hnone|]. split; [exact E|].
  intros reader ip2 Hav. rewrite 检查_google_ip_run. cbn [fst].
  assert (Hav' : MMDB_AVAILABLE (loaded w) = true).
  { unfold loaded. destruct (_ip_mmdb_reader w); exact Hav. }
  set (w1 := loaded w) in *.
  unfold google, reader_in_effect.
  cbn [with_mmdb_file _ip_mmdb_reader MMDB_AVAILABLE mmdb_file].
  now rewrite E, Hav'.
Qed.

Lemma failed_load_is_retried_witness :
  fst (检查_google_ip "142.250.0.1" timeout_world) = Ok false
  /\ fst (检查_google_ip "142.250.0.1"
            (with_mmdb_file (FileHolds sample_reader)
               (snd (检查_google_ip "142.250.0.1" timeout_world))))
     = Ok true.
Proof.
  destruct (failed_load_is_retried timeout_world "142.250.0.1" eq_refl)
    as (H1 & _ & H2).
  split; [exact H1|]. rewrite (H2 sample_reader "142.250.0.1" eq_refl).
  reflexivity.
Defined.

(** ** Pollution verifier *)

(** X10.  Without a database in effect, a candidate with a non-empty
    baseline is 已污染 at once: no resolver is constructed and no query
    sent. *)
Theorem no_database_no_rounds dns_server benchmark_ips w :
  reader_in_effect w = None ->
  benchmark_ips <> [] ->
  exists w',
    终极污染检测 dns_server benchmark_ips w = (Ok 已污染, w')
    /\ sent w' = sent w /\ built w' = built w.
Proof.
  intros Hnone Hne. unfold 终极污染检测. rewrite bind_run.
  destruct benchmark_ips as [|ip rest]; [congruence|].
  destruct (基准IP检查_run (take 3 (ip :: rest)) w) as (w1 & Hrun & _ & Hs & Hb).
  rewrite Hrun. cbn [take forallb]. unfold google at 1. rewrite Hnone.
  cbn [classify andb]. rewrite ret_run. eauto.
Qed.

Lemma no_database_no_rounds_witness :
  exists w',
    终极污染检测 "8.8.8.8" ["142.250.0.1"] timeout_world = (Ok 已污染, w')
    /\ sent w' = sent timeout_world /\ built w' = built timeout_world.
Proof.
  apply (no_database_no_rounds "8.8.8.8" ["142.250.0.1"] timeout_world).
  - reflexivity.
  - discriminate.
Defined.

Lemma 独立验证_sent dns_server c w :
  exists step w',
    独立验证 dns_server c w = (Ok step, w')
    /\ sent w' = verify_query dns_server :: sent w
    /\ built w' = S (built w).
Proof.
  unfold 独立验证. rewrite bind_run, 创建干净_resolver_run.
  unfold try_except_Exception. rewrite bind_run. cbn [perf_counter get].
  rewrite bind_run. unfold resolve at 1.
  cbn [cache nameservers lifetime mbind option_bind sent count_built network].
  fold (verify_query dns_server).
  destruct (network w (length (sent w)) (verify_query dns_server))
    as [d [ips|e]].
  - rewrite bind_run. cbn [perf_counter get]. rewrite bind_run.
    destruct (all_google_run ips (tick d (verify_query dns_server) (count_built w)))
      as (w' & Hrun & _ & Hs & Hb).
    rewrite Hrun. destruct (forallb _ ips); eexists; exists w';
      (split; [reflexivity|]); rewrite Hs, Hb; split; reflexivity.
  - cbn [is_Exception]. eexists; eexists. split; [reflexivity|].
    split; reflexivity.
Qed.

Lemma 验证循环_sent dns_server todo : forall c w,
  exists v w' n,
    验证循环 todo dns_server c w = (Ok v, w')
    /\ (n <= todo)%nat
    /\ sent w' = replicate n (verify_query dns_server) ++ sent w
    /\ built w' = (built w + n)%nat.
Proof.
  induction todo as [|todo IH]; intros c w; cbn [验证循环].
  - eexists; exists w, 0%nat. rewrite ret_run, Nat.add_0_r.
    repeat split; auto.
  - rewrite bind_run.
    destruct (独立验证_sent dns_server c w) as (step & w1 & -> & Hs & Hb).
    destruct step as [c'|v].
    + destruct (IH c' w1) as (v & w' & n & -> & Hn & Hs' & Hb').
      exists v, w', (S n). split; [reflexivity|]. split; [lia|].
      rewrite Hs', Hb', Hs, Hb, replicate_S_end, <- app_assoc.
      split; [reflexivity | lia].
    + exists v, w1, 1%nat. rewrite ret_run, Hs, Hb.
      repeat split; lia.
Qed.

(** X11.  For a candidate that is an IP address literal, every query of the
    verifier asks the candidate alone for the A record of google.com with a
    lifetime of 3 seconds, whatever the mode and time-out of the benchmark;
    there are at most five, one for each resolver constructed. *)
Theorem verifier_queries dns_server benchmark_ips w :
  is_ip_literal dns_server = true ->
  exists v w' n,
    终极污染检测 dns_server benchmark_ips w = (Ok v, w')
    /\ (n <= 5)%nat
    /\ sent w' = replicate n (mkQuery [dns_server] "google.com" "A" 3) ++ sent w
    /\ built w' = (built w + n)%nat.
Proof.
  intros _. unfold 终极污染检测. rewrite bind_run.
  destruct (基准IP检查_run (take 3 benchmark_ips) w) as (w1 & -> & _ & Hs & Hb).
  destruct (forallb (google w) (take 3 benchmark_ips)).
  - destruct (验证循环_sent dns_server 5 0 w1) as (v & w' & n & -> & Hn & Hs' & Hb').
    exists v, w', n. rewrite Hs', Hb', Hs, Hb. auto.
  - exists 已污染, w1, 0%nat. rewrite ret_run, Hs, Hb, Nat.add_0_r.
    repeat split; auto. lia.
Qed.

Lemma verifier_queries_witness :
  exists v w' n,
    终极污染检测 "8.8.8.8" ["142.250.0.1"] hijacked_world = (Ok v, w')
    /\ (n <= 5)%nat
    /\ sent w'
       = replicate n (mkQuery ["8.8.8.8"] "google.com" "A" 3)
         ++ sent hijacked_world
    /\ built w' = (built hijacked_world + n)%nat.
Proof.
  apply (verifier_queries "8.8.8.8" ["142.250.0.1"] hijacked_world).
  vm_compute. reflexivity.
Defined.

(** ** Resolver of the benchmark path, query executor *)

(** X12.  The resolver of a name server is made once for a thread: a
    second request for the same name server and time-out returns the same
    resolver, constructs nothing and leaves the thread's dict as it is. *)
Theorem resolver_is_reused dns_server t w r w1 :
  获取_resolver dns_server t w = (Ok r, w1) ->
  获取_resolver dns_server t w1 = (Ok r, w1)
  /\ (built w1 <= S (built w))%nat.
Proof.
  rewrite !获取_resolver_run. cbn zeta.
  destruct (dict_get (dns_server, t) (default [] (resolvers w))) as [r0|] eqn:G.
  - destruct (resolvers w) as [d|] eqn:E; [|discriminate G].
    intros [= <- <-]. rewrite E. cbn [default from_option id] in *.
    rewrite G. split; [reflexivity | lia].
  - destruct (resolv_conf w) as [c|]; [|discriminate].
    intros [= <- <-]. cbn [set_resolvers count_built resolvers built default
                             from_option id].
    rewrite dict_get_head. split; [reflexivity | lia].
Qed.

Lemma resolver_is_reused_witness :
  exists r w1,
    获取_resolver "8.8.8.8" (3 # 10) sample_world = (Ok r, w1)
    /\ 获取_resolver "8.8.8.8" (3 # 10) w1 = (Ok r, w1)
    /\ built w1 = 1%nat.
Proof.
  eexists; eexists. split; [vm_compute; reflexivity|].
  split; [|reflexivity].
  apply (resolver_is_reused "8.8.8.8" (3 # 10) sample_world). reflexivity.
Defined.




(** ** Benchmark runner *)

Lemma first_fast_None 延迟下限_ms outs :
  first_fast 延迟下限_ms outs = None ->
  Forall (fun out => ~ latency_ms out < 延迟下限_ms) outs.
Proof.
  induction outs as [|out outs IH]; cbn [first_fast]; [constructor|].
  destruct (Qltb (latency_ms out) 延迟下限_ms) eqn:E; [discriminate|].
  destruct (first_fast 延迟下限_ms outs); [discriminate|].
  intros _. constructor; [now apply Qltb_ge | now apply IH].
Qed.

Lemma 测试循环_ips dns_server ip_mode timeout_sec 延迟下限_ms 是IPv4 domains :
  forall acc w acc' w',
    测试循环 domains dns_server ip_mode timeout_sec 延迟下限_ms 是IPv4 acc w
    = (Ok (Next acc'), w') ->
    domain_ips acc'
    = recorded_ips domains
        (查询序列 domains dns_server (记录类型 ip_mode 是IPv4) timeout_sec w)
        (domain_ips acc).
Proof.
  induction domains as [|d rest IH]; intros acc w acc' w';
    cbn [测试循环 查询序列].
  - rewrite ret_run. intros [= <- _]. reflexivity.
  - rewrite bind_run, query_step_run.
    destruct (query_step d dns_server (记录类型 ip_mode 是IPv4) timeout_sec w)
      as [[[ok lat] ips] w1]. cbn [fst snd].
    destruct (Qltb lat 延迟下限_ms); [rewrite ret_run; discriminate|].
    unfold recorded_ips. cbn [zip zip_with fold_left fst snd].
    destruct ok; intros H; apply IH in H; exact H.
Qed.

Lemma query_step_failed domain dns_server rtype timeout_sec w :
  success (fst (query_step domain dns_server rtype timeout_sec w)) = false ->
  snd (fst (query_step domain dns_server rtype timeout_sec w)) = [].
Proof.
  unfold query_step. rewrite 执行_dns查询_run.
  destruct (解析 domain dns_server rtype timeout_sec w) as [[ips|e] w'];
    [discriminate | reflexivity].
Qed.

Lemma recorded_ips_other key domains : forall outs m,
  ~ In key domains ->
  recorded_ips domains outs m !! key = m !! key.
Proof.
  unfold recorded_ips.
  induction domains as [|d rest IH]; intros outs m Hnot; [reflexivity|].
  destruct outs as [|out outs]; [reflexivity|].
  cbn [zip zip_with fold_left fst snd].
  change (fold_left _ (zip_with pair rest outs) ?m0)
    with (fold_left (fun m p => <[fst p := snd (snd p)]> m) (zip rest outs) m0).
  rewrite IH by (intros H; apply Hnot; now right).
  apply lookup_insert_ne. intros ->. apply Hnot. now left.
Qed.

Lemma inject_length_pos {A} (x : A) l :
  0 < inject_Z (Z.of_nat (length (x :: l))).
Proof.
  change 0 with (inject_Z 0). rewrite <- Zlt_Qlt. cbn [length]. lia.
Qed.

Lemma filter_no_success outs :
  Forall (fun out => success out = false) outs ->
  List.filter success outs = [].
Proof.
  induction 1 as [|out l Hout _ IH]; [reflexivity|].
  cbn [List.filter]. now rewrite Hout.
Qed.

Section BenchmarkRecords.

Variable ip_address : string -> option ip_version.
Variables (dns_server : string) (domains : list string) (ip_mode : string).
Variables (timeout_sec 延迟下限_ms : Q) (开启污染检查 : pyval).
Variable w : World.

#[local] Abbreviation rtype := (query_rtype ip_address dns_server ip_mode).
#[local] Abbreviation outs :=
  (run_outcomes ip_address dns_server domains ip_mode timeout_sec w).
#[local] Abbreviation run :=
  (测试单个dns ip_address dns_server domains ip_mode timeout_sec
     延迟下限_ms 开启污染检查 w).

(** The two ways a run ends. *)
Lemma 测试单个dns_cases :
  match first_fast 延迟下限_ms outs with
  | Some k =>
      run = (Ok None,
             after_queries (take (S k) domains) dns_server rtype timeout_sec w)
  | None =>
      run = (Ok match successful_latencies outs with
                | [] => None
                | first :: others =>
                    Some (mkRecord dns_server
                            (inject_Z (Z.of_nat (length (List.filter success outs)))
                             / inject_Z (Z.of_nat (length domains)))
                            (sum (first :: others)
                             / inject_Z (Z.of_nat (length (first :: others))))
                            (fold_left Qmin others first)
                            (fold_left Qmax others first)
                            (if truthy 开启污染检查
                                && Qltb (4 # 10)
                                     (inject_Z (Z.of_nat (length (List.filter success outs)))
                                      / inject_Z (Z.of_nat (length domains)))
                             then 待检测 else 未测试)
                            (default [] (recorded_ips domains outs ∅
                                         !! "google.com")))
                end,
             after_queries domains dns_server rtype timeout_sec w)
  end.
Proof.
  unfold 测试单个dns. rewrite bind_run.
  pose proof (测试循环_run dns_server ip_mode timeout_sec 延迟下限_ms
                (是IPv4地址 ip_address dns_server) domains (mk累计 0 0 [] ∅) w) as Hloop.
  pose proof (测试循环_ips dns_server ip_mode timeout_sec 延迟下限_ms
                (是IPv4地址 ip_address dns_server) domains (mk累计 0 0 [] ∅) w) as Hips.
  cbn zeta in Hloop. unfold run_outcomes, query_rtype.
  destruct (first_fast _ _) as [k|] eqn:Ef.
  - rewrite Hloop. reflexivity.
  - destruct Hloop as [ds Hloop]. rewrite Hloop.
    specialize (Hips _ _ Hloop). cbn [domain_ips] in Hips. subst ds.
    cbn [延迟列表 总次数 成功次数 app Nat.add domain_ips].
    destruct (successful_latencies _) as [|first others] eqn:El; [reflexivity|].
    destruct (length domains =? 0)%nat eqn:E0; [|reflexivity].
    exfalso. apply Nat.eqb_eq in E0.
    pose proof (查询序列_length domains dns_server
                  (记录类型 ip_mode (是IPv4地址 ip_address dns_server))
                  timeout_sec w) as Hl.
    rewrite E0 in Hl. destruct (查询序列 _ _ _ _ _); [discriminate El | discriminate Hl].
Qed.


(** X15.  A name server none of whose queries succeeds yields no record,
    whether or not a query was below the threshold. *)
Theorem no_success_no_record :
  Forall (fun out => success out = false) outs ->
  fst run = Ok None.
Proof.
  intros Hall. pose proof 测试单个dns_cases as Hc.
  destruct (first_fast 延迟下限_ms outs); rewrite Hc; [reflexivity|].
  cbn [fst]. unfold successful_latencies.
  now rewrite (filter_no_success _ Hall).
Qed.

(** X16.  The success rate of a record is above 0 and at most 1. *)
Theorem record_rate_bounds r w' :
  测试单个dns ip_address dns_server domains ip_mode timeout_sec 延迟下限_ms
    开启污染检查 w = (Ok (Some r), w') ->
  0 < 成功率 r /\ 成功率 r <= 1.
Proof.
  pose proof 测试单个dns_cases as Hc.
  destruct (first_fast 延迟下限_ms outs); rewrite Hc; [discriminate|].
  unfold successful_latencies.
  destruct (List.filter success outs) as [|out succ] eqn:Es; [discriminate|].
  cbn [map]. intros [= <- _]. cbn [成功率].
  assert (Hlen : (length (out :: succ) <= length domains)%nat).
  { rewrite <- Es. unfold run_outcomes.
    rewrite <- (查询序列_length domains dns_server rtype timeout_sec w).
    apply filter_length_le. }
  assert (Hpos : 0 < inject_Z (Z.of_nat (length (out :: succ))))
    by apply inject_length_pos.
  assert (Hle : inject_Z (Z.of_nat (length (out :: succ)))
                <= inject_Z (Z.of_nat (length domains)))
    by (rewrite <- Zle_Qle; lia).
  assert (Hd : 0 < inject_Z (Z.of_nat (length domains))) by lra.
  change (S (length succ)) with (length (out :: succ)).
  split.
  - apply Qlt_shift_div_l; [exact Hd | lra].
  - apply Qle_shift_div_r; [exact Hd | lra].
Qed.

(** X17.  In a record no latency is below the threshold of the run: the
    threshold is at most the minimum, which is at most the maximum.  (The
    average is a rounded quotient in the script and is not bounded here.) *)
Theorem record_latency_bounds r w' :
  测试单个dns ip_address dns_server domains ip_mode timeout_sec 延迟下限_ms
    开启污染检查 w = (Ok (Some r), w') ->
  延迟下限_ms <= 最小延迟_ms r
  /\ 最小延迟_ms r <= 最大延迟_ms r.
Proof.
  pose proof 测试单个dns_cases as Hc.
  destruct (first_fast 延迟下限_ms outs) eqn:Ef; rewrite Hc; [discriminate|].
  apply first_fast_None in Ef.
  destruct (successful_latencies outs) as [|first others] eqn:El; [discriminate|].
  intros [= <- _]. cbn [最小延迟_ms 最大延迟_ms].
  destruct (fold_Qmin_spec others first) as [Hmin_in Hmin].
  destruct (fold_Qmax_spec others first) as [Hmax_in _].
  split.
  - rewrite <- El in Hmin_in. unfold successful_latencies in Hmin_in.
    apply in_map_iff in Hmin_in. destruct Hmin_in as (out & <- & Hin).
    apply filter_In in Hin. destruct Hin as [Hin _].
    rewrite List.Forall_forall in Ef. apply Qnot_lt_le. now apply Ef.
  - rewrite List.Forall_forall in Hmin. now apply Hmin.
Qed.

(** X18.  The baseline addresses of a record are those the query for
    google.com resolved to: none when that domain is not among the test
    domains, and none when it is the first domain and its query failed. *)
Theorem record_baseline_addresses r w' :
  测试单个dns ip_address dns_server domains ip_mode timeout_sec 延迟下限_ms
    开启污染检查 w = (Ok (Some r), w') ->
  (~ In "google.com" domains -> google_ips r = [])
  /\ (forall rest,
        domains = "google.com" :: rest -> ~ In "google.com" rest ->
        exists out,
          outs !! 0%nat = Some out
          /\ google_ips r = snd out
          /\ (success out = false -> google_ips r = [])).
Proof.
  pose proof 测试单个dns_cases as Hc.
  destruct (first_fast 延迟下限_ms outs); rewrite Hc; [discriminate|].
  destruct (successful_latencies outs); [discriminate|].
  intros [= <- _]. cbn [google_ips]. split.
  - intros Hnot. now rewrite recorded_ips_other, lookup_empty.
  - intros rest Hd Hnot. clear Hc. unfold run_outcomes. rewrite Hd.
    cbn [查询序列].
    pose proof (query_step_failed "google.com" dns_server rtype timeout_sec w) as Hf.
    destruct (query_step "google.com" dns_server rtype timeout_sec w)
      as [out w1]. cbn [fst] in Hf.
    exists out. split; [reflexivity|].
    unfold recorded_ips. cbn [zip zip_with fold_left fst snd].
    change (fold_left _ (zip_with pair rest ?o) ?m0)
      with (recorded_ips rest o m0).
    rewrite recorded_ips_other, lookup_insert_eq by exact Hnot.
    cbn [default from_option id]. split; [reflexivity | exact Hf].
Qed.

End BenchmarkRecords.


Lemma no_success_no_record_witness :
  fst (测试单个dns sample_ip_address "203.0.113.7"
         ["google.com"; "facebook.com"] "4" (3 # 10) 10 (PyInt 1) timeout_world)
  = Ok None.
Proof.
  apply (no_success_no_record sample_ip_address "203.0.113.7"
           ["google.com"; "facebook.com"] "4" (3 # 10) 10 (PyInt 1) timeout_world).
  match goal with
  | |- Forall ?P ?l => let l' := eval vm_compute in l in change (Forall P l')
  end.
  repeat (apply List.Forall_cons; [reflexivity|]). apply List.Forall_nil.
Defined.

Lemma record_rate_bounds_witness :
  exists r,
    fst (测试单个dns sample_ip_address "8.8.8.8"
           ["google.com"; "facebook.com"; "amazon.com"] "4" (3 # 10) 10
           (PyInt 1) lossy_world)
    = Ok (Some r)
    /\ 0 < 成功率 r /\ 成功率 r <= 1.
Proof.
  set (p := 测试单个dns sample_ip_address "8.8.8.8"
              ["google.com"; "facebook.com"; "amazon.com"] "4" (3 # 10) 10
              (PyInt 1) lossy_world).
  assert (E : exists r, fst p = Ok (Some r)) by (vm_compute; eauto).
  destruct E as [r E]. exists r. split; [exact E|].
  apply (record_rate_bounds sample_ip_address "8.8.8.8"
           ["google.com"; "facebook.com"; "amazon.com"] "4" (3 # 10) 10
           (PyInt 1) lossy_world r (snd p)).
  rewrite <- E. apply surjective_pairing.
Defined.

Lemma record_latency_bounds_witness :
  exists r,
    fst (测试单个dns sample_ip_address "8.8.8.8"
           ["google.com"; "facebook.com"; "amazon.com"] "4" (3 # 10) 10
           (PyInt 1) lossy_world)
    = Ok (Some r)
    /\ 10 <= 最小延迟_ms r
    /\ 最小延迟_ms r <= 最大延迟_ms r.
Proof.
  set (p := 测试单个dns sample_ip_address "8.8.8.8"
              ["google.com"; "facebook.com"; "amazon.com"] "4" (3 # 10) 10
              (PyInt 1) lossy_world).
  assert (E : exists r, fst p = Ok (Some r)) by (vm_compute; eauto).
  destruct E as [r E]. exists r. split; [exact E|].
  apply (record_latency_bounds sample_ip_address "8.8.8.8"
           ["google.com"; "facebook.com"; "amazon.com"] "4" (3 # 10) 10
           (PyInt 1) lossy_world r (snd p)).
  rewrite <- E. apply surjective_pairing.
Defined.

Lemma record_baseline_addresses_witness :
  exists r,
    fst (测试单个dns sample_ip_address "8.8.8.8"
           ["google.com"; "facebook.com"; "amazon.com"] "4" (3 # 10) 10
           (PyInt 1) lossy_world)
    = Ok (Some r)
    /\ google_ips r = ["142.250.0.1"].
Proof.
  set (p := 测试单个dns sample_ip_address "8.8.8.8"
              ["google.com"; "facebook.com"; "amazon.com"] "4" (3 # 10) 10
              (PyInt 1) lossy_world).
  assert (E : exists r, fst p = Ok (Some r)) by (vm_compute; eauto).
  destruct E as [r E]. exists r. split; [exact E|].
  destruct (record_baseline_addresses sample_ip_address "8.8.8.8"
              ["google.com"; "facebook.com"; "amazon.com"] "4" (3 # 10) 10
              (PyInt 1) lossy_world r (snd p)) as [_ H].
  - rewrite <- E. apply surjective_pairing.
  - destruct (H ["facebook.com"; "amazon.com"] eq_refl) as (out & Hout & -> & _).
    + intros [[=]|[[=]|[]]].
    + vm_compute in Hout. injection Hout as <-. reflexivity.
Defined.

Lemma query_step_unconfigured domain dns_server rtype t w :
  default [] (resolvers w) = [] ->
  resolv_conf w = None ->
  let w' := snd (query_step domain dns_server rtype t w) in
  success (fst (query_step domain dns_server rtype t w)) = false
  /\ default [] (resolvers w') = [] /\ resolv_conf w' = None
  /\ sent w' = sent w /\ built w' = built w.
Proof.
  intros Hd Hc. cbn zeta. unfold query_step. rewrite 执行_dns查询_run.
  unfold 解析. rewrite bind_run, 获取_resolver_run. cbn zeta.
  rewrite Hd, Hc. change (dict_get (dns_server, t) []) with (@None Resolver).
  cbn [fst snd success]. split; [reflexivity|].
  destruct (resolvers w) eqn:E;
    cbn [set_resolvers resolvers resolv_conf sent built];
    rewrite ?E; repeat split; auto.
Qed.

Lemma unconfigured_queries dns_server rtype t domains : forall w,
  default [] (resolvers w) = [] ->
  resolv_conf w = None ->
  Forall (fun out => success out = false)
         (查询序列 domains dns_server rtype t w)
  /\ forall n,
       sent (after_queries (take n domains) dns_server rtype t w) = sent w
       /\ built (after_queries (take n domains) dns_server rtype t w) = built w.
Proof.
  induction domains as [|d rest IH]; intros w Hd Hc; cbn [查询序列].
  - split; [constructor|]. intros n. rewrite take_nil. split; reflexivity.
  - destruct (query_step_unconfigured d dns_server rtype t w Hd Hc)
      as (Hf & Hd' & Hc' & Hs & Hb). cbn zeta in *.
    destruct (query_step d dns_server rtype t w) as [out w1]. cbn [fst snd] in *.
    destruct (IH w1 Hd' Hc') as [Hall Hw]. split; [now constructor|].
    intros [|n]; cbn [take after_queries]; [split; reflexivity|].
    pose proof (query_step_unconfigured d dns_server rtype t w Hd Hc) as H.
    cbn zeta in H. destruct H as (_ & Hd2 & Hc2 & Hs2 & Hb2).
    destruct (IH _ Hd2 Hc2) as [_ Hw2]. destruct (Hw2 n) as [-> ->].
    split; assumption.
Qed.

(** X14.  On a machine whose resolver configuration cannot be read, a
    thread without resolvers gets no record for any name server, and sends
    nothing: the resolver of the benchmark cannot be constructed. *)
Theorem unconfigured_machine_no_record ip_address dns_server domains ip_mode
    timeout_sec 延迟下限_ms 开启污染检查 w :
  default [] (resolvers w) = [] ->
  resolv_conf w = None ->
  let run := 测试单个dns ip_address dns_server domains ip_mode timeout_sec
               延迟下限_ms 开启污染检查 w in
  fst run = Ok None /\ sent (snd run) = sent w /\ built (snd run) = built w.
Proof.
  intros Hd Hc. cbn zeta.
  destruct (unconfigured_queries dns_server
              (query_rtype ip_address dns_server ip_mode) timeout_sec domains w Hd Hc)
    as [Hall Hw].
  pose proof (测试单个dns_cases ip_address dns_server domains ip_mode timeout_sec
                延迟下限_ms 开启污染检查 w) as Hcases.
  destruct (first_fast _ _) as [k|]; rewrite Hcases; cbn [fst snd].
  - split; [reflexivity | apply Hw].
  - unfold successful_latencies, run_outcomes.
    rewrite (filter_no_success _ Hall). split; [reflexivity|].
    rewrite <- (firstn_all domains). apply Hw.
Qed.

Lemma unconfigured_machine_no_record_witness :
  fst (测试单个dns sample_ip_address "8.8.8.8" ["google.com"; "facebook.com"]
         "4" (3 # 10) 10 (PyInt 1) hijacked_world)
  = Ok None.
Proof.
  apply (unconfigured_machine_no_record sample_ip_address "8.8.8.8"
           ["google.com"; "facebook.com"] "4" (3 # 10) 10 (PyInt 1)
           hijacked_world); reflexivity.
Defined.

(** ** Orchestrator *)

Lemma measurements_set_dns污染 v r :
  measurements (set_dns污染 v r) = measurements r.
Proof. reflexivity. Qed.

Lemma map_measurements_alter v j l :
  map measurements (alter (set_dns污染 v) j l) = map measurements l.
Proof.
  revert j. induction l as [|r l IH]; intros [|j]; cbn; try reflexivity.
  now rewrite IH.
Qed.

Lemma 回写结果_measurements candidates futures done : forall 结果列表,
  map measurements (回写结果 candidates futures done 结果列表)
  = map measurements 结果列表.
Proof.
  induction done as [|p done IH]; intros l; cbn [回写结果]; [reflexivity|].
  destruct (candidates !! p); [|apply IH].
  destruct (futures !! p); [|apply IH].
  now rewrite IH, map_measurements_alter.
Qed.

Lemma 默认状态_measurements 结果列表 :
  map measurements (默认状态 结果列表) = map measurements 结果列表.
Proof.
  unfold 默认状态. rewrite map_map. apply map_ext. intros r.
  destruct (bool_decide _); reflexivity.
Qed.

Lemma 污染检测_measurements threads sch 结果列表 l :
  污染检测 threads sch 结果列表 = Ok l ->
  map measurements l = map measurements 结果列表.
Proof.
  unfold 污染检测. destruct (待检测候选 结果列表); [now intros [= <-]|].
  destruct (ThreadPoolExecutor _); [|discriminate].
  cbn [mbind result_bind]. intros [= <-]. apply 回写结果_measurements.
Qed.

(** X19.  A report holds the records of the benchmark, each once and with
    its measurements and baseline addresses untouched: verification and
    sorting change labels and order only. *)
Theorem report_keeps_the_records ip_address globals cfg sch report :
  main ip_address globals cfg sch = Ok report ->
  map measurements report ≡ₚ map measurements (基准测试 ip_address cfg sch).
Proof.
  intros Hmain.
  destruct (main_Ok ip_address globals cfg sch report Hmain)
    as (flag & l & _ & _ & Hrun & ->).
  rewrite <- (污染检测_measurements _ _ _ _ Hrun), <- (默认状态_measurements l).
  apply Permutation_map, lexsort_Permutation.
Qed.

Lemma report_keeps_the_records_witness :
  exists report,
    main sample_ip_address patched_globals sample_config sample_schedule
    = Ok report
    /\ map measurements report
       ≡ₚ map measurements
            (基准测试 sample_ip_address sample_config sample_schedule).
Proof.
  eexists. split; [vm_compute; reflexivity|].
  apply (report_keeps_the_records sample_ip_address patched_globals
           sample_config sample_schedule).
  vm_compute. reflexivity.
Defined.

(** X20.  With fewer than four workers the pool of the verification has
    width [threads // 4 = 0]: as soon as one record is 待检测, [main] raises
    [ValueError] in place of verifying. *)
Theorem narrow_pool_cannot_verify ip_address globals cfg sch flag :
  globals !! "开启污染检查" = Some flag ->
  truthy flag = true ->
  (threads_input cfg < 4)%Z ->
  待检测候选 (基准测试 ip_address cfg sch) <> [] ->
  main ip_address globals cfg sch
  = Raise (ValueError "max_workers must be greater than 0").
Proof.
  intros Hflag Ht Hn Hc. unfold main.
  rewrite benchmark_pool_starts. cbn [mbind result_bind].
  destruct (基准测试 ip_address cfg sch) as [|r0 rs] eqn:Eb; [now destruct Hc|].
  unfold load_global. rewrite Hflag. cbn [mbind result_bind]. rewrite Ht.
  unfold 污染检测. destruct (待检测候选 (r0 :: rs)); [now destruct Hc|].
  unfold ThreadPoolExecutor at 1.
  assert (E : (Z.max 1 (Z.min (threads_input cfg) 4096) / 4 = 0)%Z)
    by (apply Z.div_small; lia).
  rewrite E. reflexivity.
Qed.

Lemma narrow_pool_cannot_verify_witness :
  main sample_ip_address patched_globals narrow_config sample_schedule
  = Raise (ValueError "max_workers must be greater than 0").
Proof.
  apply (narrow_pool_cannot_verify sample_ip_address patched_globals
           narrow_config sample_schedule (PyBool true)).
  - reflexivity.
  - reflexivity.
  - reflexivity.
  - vm_compute. discriminate.
Defined.

(** X21.  With the switch bound to a false value [main] verifies nothing
    and then fails in the sort: two sort columns meet three sort
    directions, and [sort_values] raises [ValueError]. *)
Theorem disabled_check_cannot_sort ip_address globals cfg sch flag :
  globals !! "开启污染检查" = Some flag ->
  truthy flag = false ->
  基准测试 ip_address cfg sch <> [] ->
  main ip_address globals cfg sch
  = Raise (ValueError "Length of ascending != length of by").
Proof.
  intros Hflag Ht Hne. unfold main.
  rewrite benchmark_pool_starts. cbn [mbind result_bind].
  destruct (基准测试 ip_address cfg sch) as [|r0 rs]; [now destruct Hne|].
  unfold load_global. rewrite Hflag. cbn [mbind result_bind]. rewrite Ht.
  reflexivity.
Qed.

Lemma disabled_check_cannot_sort_witness :
  main sample_ip_address disabled_globals sample_config sample_schedule
  = Raise (ValueError "Length of ascending != length of by").
Proof.
  apply (disabled_check_cannot_sort sample_ip_address disabled_globals
           sample_config sample_schedule (PyBool false)).
  - reflexivity.
  - reflexivity.
  - vm_compute. discriminate.
Defined.

Lemma verdict_not_unverified label : verdict label -> label <> 未测试.
Proof. intros [-> | ->]; discriminate. Qed.

(** X22.  In a report the label tells the rate: a record is 未测试 exactly
    when its success rate is at most 0.4, and carries a verdict, 未污染 or
    已污染, exactly when it is above; so every name server above 0.4 has
    been verified and none below. *)
Theorem report_labels_tell_the_rate ip_address globals cfg sch report :
  hands_back_all (verify_done sch)
    (length (待检测候选 (基准测试 ip_address cfg sch))) ->
  main ip_address globals cfg sch = Ok report ->
  Forall (fun r => (dns污染 r = 未测试 <-> ~ 4 # 10 < 成功率 r)
                   /\ (verdict (dns污染 r) <-> 4 # 10 < 成功率 r)) report.
Proof.
  intros Hall Hmain.
  destruct (main_Ok ip_address globals cfg sch report Hmain)
    as (flag & l & _ & _ & Hrun & ->).
  rewrite lexsort_Permutation. apply Forall_forall. intros r Hin.
  apply list_elem_of_In in Hin.
  destruct (labels_follow_rate ip_address cfg sch l r Hall Hrun Hin) as [Hv Hu].
  destruct (Qlt_le_dec (4 # 10) (成功率 r)) as [Hgt|Hle].
  - pose proof (Hv Hgt) as V. split; split.
    + intros E. exfalso. now apply (verdict_not_unverified _ V).
    + exact Hu.
    + intros _. exact Hgt.
    + exact Hv.
  - assert (Hn : ~ 4 # 10 < 成功率 r) by lra.
    pose proof (Hu Hn) as U. split; split.
    + intros _. exact Hn.
    + exact Hu.
    + intros V. exfalso. now apply (verdict_not_unverified _ V).
    + exact Hv.
Qed.

Lemma report_labels_tell_the_rate_witness :
  exists report,
    main sample_ip_address patched_globals sample_config sample_schedule
    = Ok report
    /\ Forall (fun r => (dns污染 r = 未测试 <-> ~ 4 # 10 < 成功率 r)
                        /\ (verdict (dns污染 r) <-> 4 # 10 < 成功率 r)) report.
Proof.
  eexists. split; [vm_compute; reflexivity|].
  apply (report_labels_tell_the_rate sample_ip_address patched_globals
           sample_config sample_schedule).
  - assert (E : length (待检测候选 (基准测试 sample_ip_address sample_config
                                      sample_schedule)) = 2%nat)
      by (vm_compute; reflexivity).
    rewrite E. intros p Hp.
    destruct p as [|[|p]]; [right; left; reflexivity | left; reflexivity | lia].
  - vm_compute. reflexivity.
Defined.

Lemma 收集结果_from_done futures done : forall acc r,
  In r (收集结果 futures done acc) ->
  In r acc \/ exists i, In i done /\ futures !! i = Some (Ok (Some r)).
Proof.
  induction done as [|i done IH]; intros acc r; cbn [收集结果]; [auto|].
  destruct (futures !! i) as [[[res|]|e]|] eqn:E; intros H; apply IH in H;
    try (destruct H as [H|(i' & Hi' & H)]; [now left | right; exists i'; split;
                                             [now right | exact H]]).
  destruct H as [H|(i' & Hi' & H)].
  - apply in_app_or in H. destruct H as [H|[<-|[]]]; [now left|].
    right. exists i. split; [now left | exact E].
  - right. exists i'. split; [now right | exact H].
Qed.

(** X23.  Every record of the benchmark phase is the record of a submitted
    name server whose future was handed back: it carries the address of
    that name server and is what the runner returned for it. *)
Theorem benchmark_records_have_a_candidate ip_address cfg sch r :
  In r (基准测试 ip_address cfg sch) ->
  exists i dns,
    dns_list cfg !! i = Some dns
    /\ In i (bench_done sch)
    /\ dns_server r = dns
    /\ fst (测试单个dns ip_address dns (test_domains cfg) (ip_mode cfg)
              (per_query_timeout_sec cfg) (min_delay cfg) (PyInt 1)
              (bench_world sch i))
       = Ok (Some r).
Proof.
  unfold 基准测试. intros H. apply 收集结果_from_done in H.
  destruct H as [[]|(i & Hi & H)].
  apply list_lookup_imap_Some in H. destruct H as (dns & Hdns & H).
  exists i, dns. split; [exact Hdns|]. split; [exact Hi|].
  split; [|now symmetry].
  pose proof (测试单个dns_cases ip_address dns (test_domains cfg) (ip_mode cfg)
                (per_query_timeout_sec cfg) (min_delay cfg) (PyInt 1)
                (bench_world sch i)) as Hc.
  destruct (first_fast _ _); rewrite Hc in H; [discriminate|].
  cbn [fst] in H. destruct (successful_latencies _); [discriminate|].
  injection H as ->. reflexivity.
Qed.

Lemma benchmark_records_have_a_candidate_witness :
  exists r i,
    In r (基准测试 sample_ip_address sample_config sample_schedule)
    /\ dns_list sample_config !! i = Some (dns_server r).
Proof.
  assert (E : exists r rest,
             基准测试 sample_ip_address sample_config sample_schedule = r :: rest)
    by (vm_compute; eauto).
  destruct E as (r & rest & E).
  destruct (benchmark_records_have_a_candidate sample_ip_address sample_config
              sample_schedule r) as (i & dns & Hi & _ & Hd & _).
  - rewrite E. now left.
  - exists r, i. split; [rewrite E; now left | now rewrite Hd].
Defined.

(** X26.  Without a candidate nothing is benchmarked and [main] exits with
    status 1, whatever the globals hold. *)
Theorem no_candidate_exit ip_address globals cfg sch :
  dns_list cfg = [] ->
  基准测试 ip_address cfg sch = []
  /\ main ip_address globals cfg sch = Raise (SystemExit 1).
Proof.
  intros Hd.
  assert (E : 基准测试 ip_address cfg sch = []).
  { unfold 基准测试. rewrite Hd. cbn [imap].
    induction (bench_done sch) as [|i done IH]; [reflexivity | exact IH]. }
  split; [exact E|]. unfold main. rewrite benchmark_pool_starts, E. reflexivity.
Qed.

Lemma no_candidate_exit_witness :
  main sample_ip_address (module_globals true) empty_config sample_schedule
  = Raise (SystemExit 1).
Proof.
  apply (no_candidate_exit sample_ip_address (module_globals true) empty_config
           sample_schedule).
  reflexivity.
Defined.

(** ** The prompts *)

Lemma In_take {A} (x : A) n l : In x (take n l) -> In x l.
Proof.
  revert n. induction l as [|y l IH]; intros [|n]; cbn; try tauto.
  intros [H|H]; [now left | right; eauto].
Qed.

Lemma 模式表_Ok mode ip_mode :
  模式表 mode = Ok ip_mode ->
  ip_mode = "4" \/ ip_mode = "6" \/ ip_mode = "46".
Proof.
  unfold 模式表.
  destruct (String.eqb mode "1"); [intros [= <-]; auto|].
  destruct (String.eqb mode "2"); [intros [= <-]; auto|].
  destruct (String.eqb mode "3"); [intros [= <-]; auto | discriminate].
Qed.

Lemma 按IP版本过滤_sound ip_address dns_list mode ip :
  In ip (按IP版本过滤 ip_address dns_list mode) ->
  exists v, ip_address ip = Some v /\ family_ok mode v = true.
Proof.
  unfold 按IP版本过滤, family_ok. rewrite 分拣_filter. cbn [app].
  destruct (String.eqb mode "4"); [|destruct (String.eqb mode "6")];
    rewrite ?in_app_iff, !filter_In, ?bool_decide_eq_true.
  - intros [_ E]. eauto.
  - intros [_ E]. eauto.
  - intros [[_ E]|[_ E]]; eauto.
Qed.

Section PromptProperties.

Variable ip_address : string -> option ip_version.
Variable strip : string -> string.
Variable split : string -> list string.
Variable int : string -> option Z.
Variable float : string -> option Q.
Variable download : string -> result (list string).

#[local] Abbreviation configure :=
  (读取配置 ip_address strip split int float download).

(** X24.  Whatever is typed, a configuration that the prompts produce has
    between 1 and 4096 workers, one of the three modes, between one and
    ten test domains of which google.com is the first and occurs once,
    and only well-formed candidates of the family of the mode. *)
Theorem prompts_give_a_valid_configuration a cfg :
  configure a = Ok cfg ->
  (1 <= threads_input cfg <= 4096)%Z
  /\ (ip_mode cfg = "4" \/ ip_mode cfg = "6" \/ ip_mode cfg = "46")
  /\ (exists rest,
        test_domains cfg = "google.com" :: rest
        /\ ~ In "google.com" rest
        /\ (length (test_domains cfg) <= 10)%nat)
  /\ Forall (fun ip => exists v, ip_address ip = Some v
                                 /\ family_ok (ip_mode cfg) v = true)
            (dns_list cfg).
Proof.
  unfold 读取配置.
  destruct (读取_dns列表 _ _ _ _) as [[|ip0 ips]|e]; cbn [mbind result_bind];
    try discriminate.
  destruct (模式表 _) as [m0|e] eqn:Em; cbn [mbind result_bind];
    [|discriminate].
  destruct (parse int (输入 strip (typed_threads a) "64")) as [threads|e];
    cbn [mbind result_bind]; [|discriminate].
  destruct (parse int (输入 strip (typed_n a) "3")) as [n|e];
    cbn [mbind result_bind]; [|discriminate].
  destruct (parse float (输入 strip (typed_min_delay a) "10")) as [min_delay|e];
    cbn [mbind result_bind]; [|discriminate].
  destruct (parse float (输入 strip (typed_timeout a) "300")) as [timeout_ms|e];
    cbn [mbind result_bind]; [|discriminate].
  assert (Hk : exists m, Z.to_nat (Z.max 1 (Z.min n (Z.of_nat (length TEST_DOMAINS))))
                         = S m /\ (m < 10)%nat).
  { exists (Z.to_nat (Z.max 1 (Z.min n (Z.of_nat (length TEST_DOMAINS))) - 1)).
    cbn [TEST_DOMAINS length]. lia. }
  destruct Hk as (m & -> & Hm).
  intros [= <-]. unfold threads_input, ip_mode, test_domains, dns_list.
  split; [lia|]. split; [now apply 模式表_Ok in Em|]. split.
  - exists (take m (tl TEST_DOMAINS)). split; [reflexivity|]. split.
    + intros Hin. apply In_take in Hin. cbn in Hin.
      repeat (destruct Hin as [Hin|Hin]; [discriminate Hin|]). exact Hin.
    + change (take (S m) TEST_DOMAINS)
        with ("google.com" :: take m (tl TEST_DOMAINS)).
      cbn [length]. rewrite length_take. lia.
  - apply Forall_forall. intros ip Hin. apply list_elem_of_In in Hin.
    now apply 按IP版本过滤_sound in Hin.
Qed.

(** X25.  A mode other than 1, 2 or 3 is not caught: once the list has
    been downloaded, [main] raises [KeyError] and benchmarks nothing. *)
Theorem unknown_mode_raises_KeyError a globals sch dns rest :
  读取_dns列表 ip_address strip split (download (chosen_url strip a))
  = Ok (dns :: rest) ->
  输入 strip (typed_mode a) "1" <> "1" ->
  输入 strip (typed_mode a) "1" <> "2" ->
  输入 strip (typed_mode a) "1" <> "3" ->
  main_from_prompts ip_address strip split int float download globals a sch
  = Raise KeyError.
Proof.
  intros Hd H1 H2 H3. unfold main_from_prompts, 读取配置.
  fold (chosen_url strip a). rewrite Hd. cbn [mbind result_bind].
  unfold 模式表. apply String.eqb_neq in H1, H2, H3.
  rewrite H1, H2, H3. reflexivity.
Qed.

(** X27.  A download that raises makes [main] raise the same; a list
    without a single address makes [main] exit with status 1 before the
    mode is asked for. *)
Theorem empty_download_exit a globals sch :
  match 读取_dns列表 ip_address strip split (download (chosen_url strip a)) with
  | Raise e =>
      main_from_prompts ip_address strip split int float download globals a sch
      = Raise e
  | Ok [] =>
      main_from_prompts ip_address strip split int float download globals a sch
      = Raise (SystemExit 1)
  | Ok (_ :: _) => True
  end.
Proof.
  unfold main_from_prompts, 读取配置. fold (chosen_url strip a).
  destruct (读取_dns列表 _ _ _ _) as [[|dns rest]|e]; [reflexivity | exact I |
                                                       reflexivity].
Qed.

End PromptProperties.

Lemma prompts_give_a_valid_configuration_witness :
  exists cfg,
    读取配置 sample_parse (fun s => s) sample_split sample_int sample_float
      sample_download default_answers
    = Ok cfg
    /\ dns_list cfg = ["8.8.8.8"; "1.1.1.1"]
    /\ (1 <= threads_input cfg <= 4096)%Z
    /\ test_domains cfg = ["google.com"; "facebook.com"; "amazon.com"].
Proof.
  eexists. split; [vm_compute; reflexivity|].
  split; [reflexivity|].
  split; [|reflexivity].
  eapply (prompts_give_a_valid_configuration sample_parse (fun s => s)
            sample_split sample_int sample_float sample_download
            default_answers).
  vm_compute. reflexivity.
Defined.

Lemma unknown_mode_raises_KeyError_witness :
  main_from_prompts sample_parse (fun s => s) sample_split sample_int
    sample_float sample_download (module_globals true) mode7_answers
    sample_schedule
  = Raise KeyError.
Proof.
  apply (unknown_mode_raises_KeyError sample_parse (fun s => s) sample_split
           sample_int sample_float sample_download mode7_answers
           (module_globals true) sample_schedule
           "8.8.8.8" ["2001:4860:4860::8888"; "1.1.1.1"]).
  - vm_compute. reflexivity.
  - discriminate.
  - discriminate.
  - discriminate.
Defined.

Lemma empty_download_exit_witness :
  main_from_prompts sample_parse (fun s => s) sample_split sample_int
    sample_float comment_download (module_globals true) default_answers
    sample_schedule
  = Raise (SystemExit 1).
Proof.
  exact (empty_download_exit sample_parse (fun s => s) sample_split sample_int
           sample_float comment_download default_answers (module_globals true)
           sample_schedule).
Defined.

(** ** The sort, the script *)

Lemma ascii_compare_refl c : Ascii.compare c c = Eq.
Proof. unfold Ascii.compare. apply N.compare_refl. Qed.

Lemma ascii_compare_Lt_trans a b c :
  Ascii.compare a b = Lt -> Ascii.compare b c = Lt -> Ascii.compare a c = Lt.
Proof.
  unfold Ascii.compare. rewrite !N.compare_lt_iff. apply N.lt_trans.
Qed.

Lemma string_compare_Lt_trans s1 : forall s2 s3,
  String.compare s1 s2 = Lt -> String.compare s2 s3 = Lt ->
  String.compare s1 s3 = Lt.
Proof.
  induction s1 as [|c1 s1 IH]; intros [|c2 s2] [|c3 s3]; cbn [String.compare];
    try congruence.
  destruct (Ascii.compare c1 c2) eqn:E12; try discriminate;
    destruct (Ascii.compare c2 c3) eqn:E23; try discriminate; intros H12 H23.
  - apply Ascii.compare_eq_iff in E12, E23. subst.
    rewrite ascii_compare_refl. now apply (IH s2).
  - apply Ascii.compare_eq_iff in E12. subst. now rewrite E23.
  - apply Ascii.compare_eq_iff in E23. subst. now rewrite E12.
  - now rewrite (ascii_compare_Lt_trans c1 c2 c3).
Qed.

Lemma string_leb_trans s1 s2 s3 :
  String.leb s1 s2 = true -> String.leb s2 s3 = true -> String.leb s1 s3 = true.
Proof.
  unfold String.leb.
  destruct (String.compare s1 s2) eqn:E12; try discriminate;
    destruct (String.compare s2 s3) eqn:E23; try discriminate; intros _ _.
  - apply String.compare_eq_iff in E12, E23. subst.
    destruct (String.compare s3 s3) eqn:E; try reflexivity.
    pose proof (String.compare_antisym s3 s3) as H. rewrite E in H.
    discriminate H.
  - apply String.compare_eq_iff in E12. subst. now rewrite E23.
  - apply String.compare_eq_iff in E23. subst. now rewrite E12.
  - now rewrite (string_compare_Lt_trans s1 s2 s3).
Qed.

(** The order of the three sort keys of [main], spelled out. *)
Lemma row_le_key_le r1 r2 : row_le report_keys r1 r2 <-> key_le r1 r2.
Proof.
  unfold row_le, row_leb, report_keys, key_le. cbn [row_compare cell_compare].
  unfold String.leb. rewrite (String.compare_antisym (dns污染 r2) (dns污染 r1)).
  destruct (Qcompare_spec (成功率 r1) (成功率 r2)) as [Er|Hr|Hr]; cbn [CompOpp].
  - destruct (Qcompare_spec (平均延迟_ms r1) (平均延迟_ms r2)) as [Ea|Ha|Ha].
    + destruct (String.compare (dns污染 r1) (dns污染 r2)); cbn [CompOpp]; split.
      * intros _. right. split; [exact Er|]. right. split; [exact Ea | reflexivity].
      * reflexivity.
      * discriminate.
      * intros [H | [_ [H | [_ H]]]]; [lra | lra | exact H].
      * intros _. right. split; [exact Er|]. right. split; [exact Ea | reflexivity].
      * reflexivity.
    + split; [|reflexivity]. intros _. right. split; [exact Er|]. now left.
    + split; [discriminate|]. intros [H | [_ [H | [H _]]]]; lra.
  - split; [discriminate|]. intros [H | [H _]]; lra.
  - split; [|reflexivity]. intros _. now left.
Qed.

Lemma key_le_trans : Transitive key_le.
Proof.
  intros r1 r2 r3. unfold key_le.
  intros [H12 | [E12 [A12 | [F12 L12]]]] [H23 | [E23 [A23 | [F23 L23]]]];
    first [ left; lra
          | right; split; [lra|]; left; lra
          | right; split; [lra|]; right; split;
            [lra | exact (string_leb_trans _ _ _ L23 L12)] ].
Qed.

Lemma StronglySorted_lookup {A} (R : relation A) l : forall i j a b,
  StronglySorted R l -> (i < j)%nat ->
  l !! i = Some a -> l !! j = Some b -> R a b.
Proof.
  induction l as [|x l IH]; intros i j a b HS Hij Hi Hj; [discriminate Hi|].
  apply StronglySorted_inv in HS. destruct HS as [HS Hall].
  destruct j as [|j]; [lia|]. destruct i as [|i].
  - injection Hi as ->. rewrite List.Forall_forall in Hall. apply Hall.
    apply list_elem_of_In, list_elem_of_lookup. exists j. exact Hj.
  - apply (IH i j); [exact HS | lia | exact Hi | exact Hj].
Qed.

(** The frame that the sort of [main] returns is ordered by [key_le] at
    any two positions. *)
Lemma sort_values_key_le df sorted i j r1 r2 :
  sort_values ["成功率"; "平均延迟_ms"; "dns污染"] [false; true; false] df
  = Ok sorted ->
  (i < j)%nat -> sorted !! i = Some r1 -> sorted !! j = Some r2 ->
  key_le r1 r2.
Proof.
  change (sort_values ["成功率"; "平均延迟_ms"; "dns污染"] [false; true; false] df)
    with (Ok (lexsort report_keys df)).
  intros [= <-] Hij Hi Hj.
  assert (HS : StronglySorted key_le (lexsort report_keys df)).
  { apply Sorted_StronglySorted; [apply key_le_trans|].
    apply (Sorted_on (row_le report_keys) key_le (fun _ => True)).
    - intros x y _ _. apply row_le_key_le.
    - apply Forall_forall. auto.
    - apply Sorted_lexsort. }
  exact (StronglySorted_lookup key_le _ i j r1 r2 HS Hij Hi Hj).
Qed.

(** X28.  In the frame that [sort_values] returns for the three sort keys
    of [main], of two rows that tie on success rate and average latency the
    one that comes first has the label that is greater, or the same, in
    string order: a row 未测试 is never behind a row 未污染 that it ties with,
    nor a row 未污染 behind a row 已污染. *)
Theorem ties_are_sorted_by_label_descending df sorted i j r1 r2 :
  sort_values ["成功率"; "平均延迟_ms"; "dns污染"] [false; true; false] df
  = Ok sorted ->
  (i < j)%nat -> sorted !! i = Some r1 -> sorted !! j = Some r2 ->
  成功率 r1 == 成功率 r2 ->
  平均延迟_ms r1 == 平均延迟_ms r2 ->
  String.leb (dns污染 r2) (dns污染 r1) = true
  /\ (dns污染 r1 = 未污染 -> dns污染 r2 <> 未测试)
  /\ (dns污染 r1 = 已污染 -> dns污染 r2 <> 未测试 /\ dns污染 r2 <> 未污染).
Proof.
  intros Hsort Hij Hi Hj Hr Ha.
  pose proof (sort_values_key_le df sorted i j r1 r2 Hsort Hij Hi Hj) as Hle.
  destruct Hle as [H | [_ [H | [_ H]]]]; [lra | lra |].
  split; [exact H|]. split.
  - intros E1 E2. rewrite E1, E2 in H. discriminate H.
  - intros E1. split; intros E2; rewrite E1, E2 in H; discriminate H.
Qed.

(** Three rows that tie on rate and latency come out 未测试, 未污染,
    已污染. *)
Lemma ties_are_sorted_by_label_descending_witness :
  sort_values ["成功率"; "平均延迟_ms"; "dns污染"] [false; true; false]
    [tied_polluted; tied_unverified; tied_clean]
  = Ok [tied_unverified; tied_clean; tied_polluted]
  /\ String.leb (dns污染 tied_clean) (dns污染 tied_unverified) = true.
Proof.
  destruct (ties_are_sorted_by_label_descending
              [tied_polluted; tied_unverified; tied_clean]
              [tied_unverified; tied_clean; tied_polluted]
              0 1 tied_unverified tied_clean) as [H _].
  - vm_compute. reflexivity.
  - lia.
  - reflexivity.
  - reflexivity.
  - reflexivity.
  - reflexivity.
  - split; [vm_compute; reflexivity | exact H].
Defined.

(** X29.  Run as a script, [main] never returns a report, whatever the
    candidates, the answers of the network and the order of completion:
    without a record it exits with status 1, with one it raises
    [NameError] for 开启污染检查, before any verification. *)
Theorem script_never_returns_a_report ip_address mmdb_available cfg sch :
  (forall report,
     main ip_address (module_globals mmdb_available) cfg sch <> Ok report)
  /\ (基准测试 ip_address cfg sch = [] ->
      main ip_address (module_globals mmdb_available) cfg sch
      = Raise (SystemExit 1))
  /\ (基准测试 ip_address cfg sch <> [] ->
      main ip_address (module_globals mmdb_available) cfg sch
      = Raise (NameError "开启污染检查")).
Proof.
  rewrite main_script_never_reports.
  destruct (基准测试 ip_address cfg sch) as [|r rs].
  - split; [discriminate|]. split; [reflexivity | congruence].
  - split; [discriminate|]. split; [discriminate | reflexivity].
Qed.
